(** * Klashibot decision pipeline: opportunity model, risk sizing,
    circuit breaker, TTL cache, signal aggregation and ranking.

  The Python sources are embedded shallowly.  Python [float] values are
  read as exact rationals ([Q]), Python [int] values as [Z], [str] as
  [string], and clock readings ([time.time()], [datetime.now()]) as
  rational seconds that the caller supplies explicitly.  Dictionaries
  keyed by ticker are [gmap string _]; the two cache dictionaries, whose
  iteration order decides which entry is evicted, are association lists
  in insertion order. *)

From Stdlib Require Import ZArith QArith Lia Lqa String Ascii List Bool Sorted.
From stdpp Require Import base gmap strings.
Import ListNotations.

Open Scope Q_scope.

(** ** Python primitives used by the sources *)

Module Py.

(** [a < b] on floats. *)
Definition ltb (a b : Q) : bool :=
  (Qnum a * QDen b <? Qnum b * QDen a)%Z.

(** [a <= b] on floats. *)
Definition leb (a b : Q) : bool := Qle_bool a b.

(** [max(a, b)]: the first argument is kept unless the second is
    strictly larger. *)
Definition max (a b : Q) : Q := if ltb a b then b else a.

(** [min(a, b)]: the first argument is kept unless the second is
    strictly smaller. *)
Definition min (a b : Q) : Q := if ltb b a then b else a.

(** [int(x)] on a float: truncation toward zero. *)
Definition int (x : Q) : Z := Z.quot (Qnum x) (Z.pos (Qden x)).

(** [str.lower()] on the ASCII range. *)
Definition lower_ascii (c : ascii) : ascii :=
  let n := nat_of_ascii c in
  if ((65 <=? n)%nat && (n <=? 90)%nat)%bool then ascii_of_nat (n + 32) else c.

Fixpoint lower (s : string) : string :=
  match s with
  | EmptyString => EmptyString
  | String c s' => String (lower_ascii c) (lower s')
  end.




(** What a call gives back: a value or a raised exception. *)
Inductive exn : Type := ZeroDivisionError | ValueError.

Inductive result (A : Type) : Type :=
| Return (a : A)
| Raise (e : exn).
Arguments Return {A} a.
Arguments Raise {A} e.



End Py.

(** ** models.py: MarketOpportunity *)

Module MarketOpportunity.

Record t : Type := mk {
  ticker : string;
  market_title : string;
  edge : Q;
  confidence : Q;
  side : string;
  entry_price : Q;
  suggested_size : Z;
  reasoning : string;
  liquidity_score : Q;
  probability : Q;
  timestamp : Q;
  correlation_group : string
}.

(** [__post_init__]: the dataclass stores the arguments as given and
    then rewrites the bounded fields in place. *)
Definition post_init (self : t) : t :=
  let confidence' := Py.max 0 (Py.min 1 (confidence self)) in
  let probability' := Py.max 0 (Py.min 1 (probability self)) in
  let liquidity_score' := Py.max 0 (Py.min 1 (liquidity_score self)) in
  let lowered := Py.lower (side self) in
  let side' :=
    if (String.eqb lowered "yes" || String.eqb lowered "no")%bool
    then lowered else "yes"%string in
  let edge' := Py.max 0 (edge self) in
  let entry_price' := Py.max 0 (Py.min 100 (entry_price self)) in
  let suggested_size' := Z.max 0 (suggested_size self) in
  {| ticker := ticker self;
     market_title := market_title self;
     edge := edge';
     confidence := confidence';
     side := side';
     entry_price := entry_price';
     suggested_size := suggested_size';
     reasoning := reasoning self;
     liquidity_score := liquidity_score';
     probability := probability';
     timestamp := timestamp self;
     correlation_group := correlation_group self |}.

(** The [score] property. *)
Definition score (self : t) : Q :=
  edge self * confidence self * liquidity_score self.

(** The [expected_value] property. *)
Definition expected_value (self : t) : Q :=
  let '(win_prob, payout) :=
    if String.eqb (side self) "yes"
    then (probability self, 100 - entry_price self)
    else (1 - probability self, entry_price self) in
  (win_prob * payout) - ((1 - win_prob) * entry_price self).

(** Direct attribute assignment [opp.suggested_size = size]. *)
Definition set_suggested_size (self : t) (n : Z) : t :=
  {| ticker := ticker self;
     market_title := market_title self;
     edge := edge self;
     confidence := confidence self;
     side := side self;
     entry_price := entry_price self;
     suggested_size := n;
     reasoning := reasoning self;
     liquidity_score := liquidity_score self;
     probability := probability self;
     timestamp := timestamp self;
     correlation_group := correlation_group self |}.

(** The field bounds that construction establishes. *)
Definition valid (o : t) : Prop :=
  0 <= confidence o <= 1 /\
  0 <= probability o <= 1 /\
  0 <= liquidity_score o <= 1 /\
  0 <= entry_price o <= 100 /\
  0 <= edge o /\
  (0 <= suggested_size o)%Z /\
  (side o = "yes"%string \/ side o = "no"%string).

End MarketOpportunity.

(** ** risk/manager.py: RiskConfig, Position, TradeRecord, RiskManager *)

Inductive RiskLevel : Type := LOW | MEDIUM | HIGH | CRITICAL.

Module RiskConfig.

Record t : Type := mk {
  max_position_size_usd : Q;
  max_portfolio_allocation : Q;
  max_single_trade_allocation : Q;
  max_daily_loss_usd : Q;
  max_daily_loss_pct : Q;
  max_weekly_loss_usd : Q;
  max_drawdown_limit : Q;
  max_intraday_drawdown : Q;
  kelly_multiplier : Q;
  min_kelly_fraction : Q;
  max_kelly_fraction : Q;
  volatility_adjustment : bool;
  max_volatility_threshold : Q;
  max_concentration : Q;
  max_correlation_threshold : Q;
  min_edge : Q;
  min_confidence : Q;
  min_liquidity_score : Q;
  max_trades_per_hour : Z;
  max_trades_per_day : Z;
  cooldown_period_minutes : Z;
  trading_halt_on_volatility : bool;
  volatility_spike_threshold : Q
}.

(** The dataclass defaults. *)
Definition default : t :=
  {| max_position_size_usd := 100;
     max_portfolio_allocation := 0.25;
     max_single_trade_allocation := 0.10;
     max_daily_loss_usd := 30;
     max_daily_loss_pct := 0.10;
     max_weekly_loss_usd := 100;
     max_drawdown_limit := 0.20;
     max_intraday_drawdown := 0.15;
     kelly_multiplier := 0.5;
     min_kelly_fraction := 0.01;
     max_kelly_fraction := 0.50;
     volatility_adjustment := true;
     max_volatility_threshold := 0.40;
     max_concentration := 0.30;
     max_correlation_threshold := 0.70;
     min_edge := 0.5;
     min_confidence := 0.3;
     min_liquidity_score := 0.1;
     max_trades_per_hour := 10;
     max_trades_per_day := 50;
     cooldown_period_minutes := 5;
     trading_halt_on_volatility := true;
     volatility_spike_threshold := 2 |}.

End RiskConfig.

Module Position.

Record t : Type := mk {
  ticker : string;
  side : string;
  size : Z;
  entry_price : Q;
  entry_time : Q;
  current_price : option Q;
  unrealized_pnl : Q;
  market_correlation_group : string
}.

End Position.

Module TradeRecord.

Record t : Type := mk {
  ticker : string;
  side : string;
  size : Z;
  entry_price : Q;
  exit_price : option Q;
  pnl : Q;
  timestamp : Q;
  risk_level : RiskLevel
}.

End TradeRecord.

Module RiskManager.

(** The [circuit_breakers] dictionary has four fixed keys. *)
Record breakers : Type := mk_breakers {
  daily_loss : bool;
  drawdown : bool;
  volatility : bool;
  trade_frequency : bool
}.

Record t : Type := mk {
  config : RiskConfig.t;
  daily_pnl : Q;
  weekly_pnl : Q;
  peak_balance : Q;
  current_drawdown : Q;
  intraday_drawdown : Q;
  active_positions_value : Q;
  active_positions : gmap string Position.t;
  trade_history : list TradeRecord.t;
  hourly_trades : list Q;
  daily_trades : list Q;
  ticker_last_trade : gmap string Q;
  volatility_estimate : Q;
  var_95 : Q;
  expected_shortfall : Q;
  correlation_groups : gmap string (gset string);
  price_history : gmap string (list Q);
  circuit_breakers : breakers
}.

(** [RiskManager(config)] right after [__init__]. *)
Definition init (cfg : RiskConfig.t) : t :=
  {| config := cfg;
     daily_pnl := 0;
     weekly_pnl := 0;
     peak_balance := 0;
     current_drawdown := 0;
     intraday_drawdown := 0;
     active_positions_value := 0;
     active_positions := ∅;
     trade_history := [];
     hourly_trades := [];
     daily_trades := [];
     ticker_last_trade := ∅;
     volatility_estimate := 0.15;
     var_95 := 0;
     expected_shortfall := 0;
     correlation_groups := ∅;
     price_history := ∅;
     circuit_breakers := mk_breakers false false false false |}.

(** Methods run against the mutable object [self]: a computation takes
    the manager's state and returns a result with the state afterwards. *)
Definition M (A : Type) : Type := t -> A * t.

Definition ret {A : Type} (a : A) : M A := fun s => (a, s).

Definition bind {A B : Type} (m : M A) (k : A -> M B) : M B :=
  fun s => let '(a, s') := m s in k a s'.

(** Reading an attribute of [self]. *)
Definition read {A : Type} (f : t -> A) : M A := fun s => (f s, s).

(** Replacing the state (attribute assignment on [self]). *)
Definition write (s' : t) : M unit := fun _ => (tt, s').

Declare Scope risk_scope.
Delimit Scope risk_scope with risk.
Notation "'let*' x ':=' m 'in' k" := (bind m (fun x => k))
  (at level 10, x name, m at level 100, k at level 200) : risk_scope.
Open Scope risk_scope.

(** [portfolio.get("balance", 0.0)]. *)
Definition balance_of (portfolio : gmap string Q) : Q :=
  match portfolio !! "balance"%string with
  | Some b => b
  | None => 0
  end.

(** [_calculate_volatility_adjustment]. *)
Definition _calculate_volatility_adjustment : M Q :=
  let* vol := read volatility_estimate in
  let* cfg := read config in
  if Py.leb vol 0 then ret 1
  else if Py.ltb (RiskConfig.max_volatility_threshold cfg) vol
       then ret (RiskConfig.max_volatility_threshold cfg / vol)
       else ret 1.

(** [_get_correlation_exposure]: dollar exposure of the open positions
    tagged with [group]. *)
Definition _get_correlation_exposure (group : string) : M Q :=
  let* positions := read active_positions in
  ret (map_fold
         (fun (_ : string) (position : Position.t) (exposure : Q) =>
            if String.eqb (Position.market_correlation_group position) group
            then exposure
                 + inject_Z (Position.size position)
                   * Position.entry_price position / 100
            else exposure)
         0 positions).

(** [check_trade_risk]; [now] is the value [datetime.now()] returns at
    the cooldown check.  Every [return 0] of the source is a [ret 0%Z]
    here, in the source's order. *)
Definition check_trade_risk
    (opportunity : MarketOpportunity.t) (portfolio : gmap string Q)
    (now : Q) : M Z :=
  let ticker := MarketOpportunity.ticker opportunity in
  if String.eqb ticker "" then ret 0%Z else
  let balance := balance_of portfolio in
  let* cb := read circuit_breakers in
  if daily_loss cb then ret 0%Z else
  if drawdown cb then ret 0%Z else
  if trade_frequency cb then ret 0%Z else
  let* cfg := read config in
  if Py.ltb (MarketOpportunity.edge opportunity) (RiskConfig.min_edge cfg)
  then ret 0%Z else
  if Py.ltb (MarketOpportunity.confidence opportunity)
            (RiskConfig.min_confidence cfg)
  then ret 0%Z else
  if Py.ltb (MarketOpportunity.liquidity_score opportunity)
            (RiskConfig.min_liquidity_score cfg)
  then ret 0%Z else
  let* last_trade := read ticker_last_trade in
  if match last_trade !! ticker with
     | Some last =>
         Py.ltb ((now - last) / 60)
                (inject_Z (RiskConfig.cooldown_period_minutes cfg))
     | None => false
     end
  then ret 0%Z else
  let entry_price := MarketOpportunity.entry_price opportunity in
  if (Py.leb entry_price 0 || Py.leb 100 entry_price)%bool then ret 0%Z else
  let win_prob := MarketOpportunity.probability opportunity in
  let net_odds := (100 - entry_price) / entry_price in
  let kelly_fraction := win_prob - ((1 - win_prob) / net_odds) in
  if Py.leb kelly_fraction 0 then ret 0%Z else
  let target_fraction := kelly_fraction * RiskConfig.kelly_multiplier cfg in
  let target_fraction :=
    Py.max (RiskConfig.min_kelly_fraction cfg)
           (Py.min target_fraction (RiskConfig.max_kelly_fraction cfg)) in
  let* target_fraction :=
    (if RiskConfig.volatility_adjustment cfg
     then let* vol_adjustment := _calculate_volatility_adjustment in
          ret (target_fraction * vol_adjustment)
     else ret target_fraction) in
  let max_alloc_fraction :=
    Py.min target_fraction (RiskConfig.max_portfolio_allocation cfg) in
  let max_alloc_fraction :=
    Py.min max_alloc_fraction (RiskConfig.max_single_trade_allocation cfg) in
  let trade_amount_usd := balance * max_alloc_fraction in
  let trade_amount_usd :=
    Py.min trade_amount_usd (RiskConfig.max_position_size_usd cfg) in
  let trade_amount_cents := trade_amount_usd * 100 in
  let num_contracts := Py.int (trade_amount_cents / entry_price) in
  let correlation_group := MarketOpportunity.correlation_group opportunity in
  let* current_exposure := _get_correlation_exposure correlation_group in
  let potential_exposure :=
    current_exposure + (inject_Z num_contracts * entry_price / 100) in
  let max_exposure := balance * RiskConfig.max_concentration cfg in
  if Py.ltb max_exposure potential_exposure then
    let available_exposure := max_exposure - current_exposure in
    if Py.leb available_exposure 0 then ret 0%Z else
    let num_contracts := Py.int ((available_exposure * 100) / entry_price) in
    if (num_contracts <? 1)%Z then ret 0%Z else ret num_contracts
  else
    if (num_contracts <? 1)%Z then ret 0%Z else ret num_contracts.

(** The loop of [record_trade_result] over [reversed(self.trade_history)]:
    the first record met for the ticker that has no exit price yet gets
    the exit price and the P&L, and the loop stops. *)
Fixpoint close_latest (ticker : string) (pnl : Q) (exit_price : option Q)
    (reversed : list TradeRecord.t) : list TradeRecord.t :=
  match reversed with
  | [] => []
  | trade :: rest =>
      if (String.eqb (TradeRecord.ticker trade) ticker
          && match TradeRecord.exit_price trade with
             | None => true
             | Some _ => false
             end)%bool
      then {| TradeRecord.ticker := TradeRecord.ticker trade;
              TradeRecord.side := TradeRecord.side trade;
              TradeRecord.size := TradeRecord.size trade;
              TradeRecord.entry_price := TradeRecord.entry_price trade;
              TradeRecord.exit_price := exit_price;
              TradeRecord.pnl := pnl;
              TradeRecord.timestamp := TradeRecord.timestamp trade;
              TradeRecord.risk_level := TradeRecord.risk_level trade |}
           :: rest
      else trade :: close_latest ticker pnl exit_price rest
  end.

(** [record_trade_result]: a method that does write to [self]. *)
Definition record_trade_result (ticker : string) (pnl : Q)
    (exit_price : option Q) : M unit :=
  let* s := read (fun s => s) in
  write
    {| config := config s;
       daily_pnl := daily_pnl s + pnl;
       weekly_pnl := weekly_pnl s + pnl;
       peak_balance := peak_balance s;
       current_drawdown := current_drawdown s;
       intraday_drawdown := intraday_drawdown s;
       active_positions_value := active_positions_value s;
       active_positions := delete ticker (active_positions s);
       trade_history :=
         List.rev (close_latest ticker pnl exit_price
                     (List.rev (trade_history s)));
       hourly_trades := hourly_trades s;
       daily_trades := daily_trades s;
       ticker_last_trade := ticker_last_trade s;
       volatility_estimate := volatility_estimate s;
       var_95 := var_95 s;
       expected_shortfall := expected_shortfall s;
       correlation_groups := correlation_groups s;
       price_history := price_history s;
       circuit_breakers := circuit_breakers s |}.

Close Scope risk_scope.

End RiskManager.

(** ** trading_engine.py: CircuitBreaker *)

Module CircuitBreaker.

(** The [state] attribute takes the strings "closed", "open" and
    "half-open". *)
Inductive state_t : Type := st_closed | st_open | st_half_open.

Record t : Type := mk {
  failure_threshold : Z;
  recovery_timeout : Z;
  failure_count : Z;
  last_failure_time : option Q;
  state : state_t
}.

Definition init (threshold timeout : Z) : t :=
  {| failure_threshold := threshold;
     recovery_timeout := timeout;
     failure_count := 0;
     last_failure_time := None;
     state := st_closed |}.

(** What the awaited operation does: it returns a value, or it raises
    and the handler reads the clock at [raised_at]. *)
Inductive operation (A : Type) : Type :=
| returns (a : A)
| raises (raised_at : Q).
Arguments returns {A} a.
Arguments raises {A} raised_at.

(** What [call] gives back to its caller. *)
Inductive result (A : Type) : Type :=
| Returned (a : A)
| CircuitBreakerOpen
| Reraised.
Arguments Returned {A} a.
Arguments CircuitBreakerOpen {A}.
Arguments Reraised {A}.

Definition state_eqb (a b : state_t) : bool :=
  match a, b with
  | st_closed, st_closed | st_open, st_open | st_half_open, st_half_open => true
  | _, _ => false
  end.

Definition with_state (self : t) (s : state_t) : t :=
  {| failure_threshold := failure_threshold self;
     recovery_timeout := recovery_timeout self;
     failure_count := failure_count self;
     last_failure_time := last_failure_time self;
     state := s |}.

(** First critical section of [call] at clock reading [now]: [None]
    stands for raising [CircuitBreakerOpen].  A [last_failure_time] of
    [None] or [0.0] is falsy. *)
Definition enter (self : t) (now : Q) : option t :=
  if state_eqb (state self) st_open then
    match last_failure_time self with
    | Some last =>
        if (negb (Qeq_bool last 0)
            && Py.ltb (inject_Z (recovery_timeout self)) (now - last))%bool
        then Some (with_state self st_half_open)
        else None
    | None => None
    end
  else Some self.

(** The critical section after the operation returned. *)
Definition on_success (self : t) : t :=
  if state_eqb (state self) st_half_open then
    {| failure_threshold := failure_threshold self;
       recovery_timeout := recovery_timeout self;
       failure_count := 0;
       last_failure_time := last_failure_time self;
       state := st_closed |}
  else self.

(** The critical section of the exception handler. *)
Definition on_failure (self : t) (raised_at : Q) : t :=
  let count := (failure_count self + 1)%Z in
  {| failure_threshold := failure_threshold self;
     recovery_timeout := recovery_timeout self;
     failure_count := count;
     last_failure_time := Some raised_at;
     state := if (failure_threshold self <=? count)%Z
              then st_open else state self |}.

(** [call], run to completion with no other caller in between. *)
Definition call {A : Type} (self : t) (now : Q) (op : operation A)
    : result A * t :=
  match enter self now with
  | None => (CircuitBreakerOpen, self)
  | Some self1 =>
      match op with
      | returns a => (Returned a, on_success self1)
      | raises raised_at => (Reraised, on_failure self1 raised_at)
      end
  end.

(** A sequence of calls, each with the clock reading at entry. *)
Fixpoint run {A : Type} (self : t) (calls : list (Q * operation A)) : t :=
  match calls with
  | [] => self
  | (now, op) :: rest => run (snd (call self now op)) rest
  end.

Definition is_raise {A : Type} (c : Q * operation A) : bool :=
  match snd c with
  | raises _ => true
  | returns _ => false
  end.

(** Number of failed operations in a sequence of calls. *)
Definition failures {A : Type} (calls : list (Q * operation A)) : Z :=
  Z.of_nat (List.length (List.filter is_raise calls)).

End CircuitBreaker.

(** ** trading_engine.py: AsyncCache *)

Module AsyncCache.

(** A Python [dict] in insertion order. *)
Definition dict (X : Type) : Type := list (string * X).

Fixpoint dict_get {X : Type} (d : dict X) (k : string) : option X :=
  match d with
  | [] => None
  | (k', x) :: d' => if String.eqb k' k then Some x else dict_get d' k
  end.

(** [d[k] = x]: an existing key keeps its place, a new key goes last. *)
Fixpoint dict_set {X : Type} (d : dict X) (k : string) (x : X) : dict X :=
  match d with
  | [] => [(k, x)]
  | (k', x') :: d' =>
      if String.eqb k' k then (k', x) :: d' else (k', x') :: dict_set d' k x
  end.

(** [d.pop(k, None)]. *)
Fixpoint dict_pop {X : Type} (d : dict X) (k : string) : dict X :=
  match d with
  | [] => []
  | (k', x') :: d' =>
      if String.eqb k' k then d' else (k', x') :: dict_pop d' k
  end.

(** [min(items, key=lambda x: x[1])] with a current best: the first
    smallest item wins. *)
Fixpoint min_item (best : string * Q) (items : list (string * Q))
    : string * Q :=
  match items with
  | [] => best
  | it :: rest =>
      if Py.ltb (snd it) (snd best) then min_item it rest
      else min_item best rest
  end.

(** The key of [min(d.items(), key=lambda x: x[1])]; [None] on an empty
    dictionary, where [min] has nothing to return. *)
Definition oldest_key (ttls : dict Q) : option string :=
  match ttls with
  | [] => None
  | first :: rest => Some (fst (min_item first rest))
  end.

Section WithValue.

Variable V : Type.

Record t : Type := mk {
  redis : bool;                (* a remote client is configured *)
  local_cache : dict V;
  local_ttl : dict Q;
  default_ttl : Z;
  _local_max_size : nat;
  _hits : Z;
  _misses : Z
}.

Definition init (has_redis : bool) (ttl : Z) : t :=
  {| redis := has_redis;
     local_cache := [];
     local_ttl := [];
     default_ttl := ttl;
     _local_max_size := 500;
     _hits := 0;
     _misses := 0 |}.

(** How [redis.setex] ends. *)
Inductive setex_result : Type := setex_ok | setex_raises.

(** How [set] ends for its caller. *)
Inductive set_result : Type := set_returns | set_raises.

(** [ttl or self.default_ttl]: [None] and [0] are falsy. *)
Definition effective_ttl (self : t) (ttl : option Z) : Z :=
  match ttl with
  | Some n => if (n =? 0)%Z then default_ttl self else n
  | None => default_ttl self
  end.

(** The local write with the eviction that follows it. *)
Definition set_local (self : t) (key : string) (value : V) (ttl : Z)
    (now : Q) : t :=
  let cache1 := dict_set (local_cache self) key value in
  let ttl1 := dict_set (local_ttl self) key (now + inject_Z ttl) in
  let '(cache2, ttl2) :=
    if (_local_max_size self <? List.length cache1)%nat then
      match oldest_key ttl1 with
      | Some oldest => (dict_pop cache1 oldest, dict_pop ttl1 oldest)
      | None => (cache1, ttl1)
      end
    else (cache1, ttl1) in
  {| redis := redis self;
     local_cache := cache2;
     local_ttl := ttl2;
     default_ttl := default_ttl self;
     _local_max_size := _local_max_size self;
     _hits := _hits self;
     _misses := _misses self |}.

(** [set]: [remote] says how the remote write ends when it is tried;
    [now] is the clock reading at the local write. *)
Definition set (self : t) (key : string) (value : V) (ttl : option Z)
    (now : Q) (remote : setex_result) : set_result * t :=
  let ttl := effective_ttl self ttl in
  if redis self then
    match remote with
    | setex_ok => (set_returns, self)
    | setex_raises => (set_returns, set_local self key value ttl now)
    end
  else (set_returns, set_local self key value ttl now).

End WithValue.

Arguments redis {V} _.
Arguments local_cache {V} _.
Arguments local_ttl {V} _.
Arguments set {V} self key value ttl now remote.
Arguments set_local {V} self key value ttl now.
Arguments effective_ttl {V} self ttl.

End AsyncCache.

(** ** strategies/manager.py: signal aggregation *)

Module StrategyManager.



(** The bracketed strategy name of a reasoning text, when it has both
    brackets: [r[r.find("[") + 1 : r.find("]")]]. *)
Definition strategy_name (r : string) : option string :=
  match String.index 0 "[" r, String.index 0 "]" r with
  | Some i, Some j => Some (String.substring (S i) (j - S i) r)
  | _, _ => None
  end.




End StrategyManager.

(** ** trading_engine.py: opportunity selection *)

Module TradingEngine.

(** The ranking key [edge * confidence]. *)
Definition rank_key (x : MarketOpportunity.t) : Q :=
  MarketOpportunity.edge x * MarketOpportunity.confidence x.

(** [list.sort(key=rank_key, reverse=True)]: descending and stable, so
    an element goes in front of the first element whose key is not
    larger than its own. *)
Fixpoint insert_desc (x : MarketOpportunity.t)
    (sorted : list MarketOpportunity.t) : list MarketOpportunity.t :=
  match sorted with
  | [] => [x]
  | y :: rest =>
      if Py.leb (rank_key y) (rank_key x) then x :: y :: rest
      else y :: insert_desc x rest
  end.

Fixpoint sort_desc (l : list MarketOpportunity.t)
    : list MarketOpportunity.t :=
  match l with
  | [] => []
  | x :: rest => insert_desc x (sort_desc rest)
  end.

(** The slice [l[:n]]; a negative [n] counts from the end. *)
Definition slice_to {A : Type} (l : list A) (n : Z) : list A :=
  if (0 <=? n)%Z then firstn (Z.to_nat n) l
  else firstn (List.length l - Z.to_nat (- n)) l.

(** The comprehension that keeps the analysed results with positive
    edge; each result carries the clock reading its risk check will
    observe. *)
Definition valid_opps (results : list (option MarketOpportunity.t * Q))
    : list (MarketOpportunity.t * Q) :=
  flat_map
    (fun r =>
       match fst r with
       | Some o =>
           if Py.ltb 0 (MarketOpportunity.edge o) then [(o, snd r)] else []
       | None => []
       end)
    results.

Import RiskManager.
Open Scope risk_scope.

(** The risk-sizing loop over [valid_opps]. *)
Fixpoint apply_risk_sizing (portfolio : gmap string Q)
    (opps : list (MarketOpportunity.t * Q))
    : RiskManager.M (list MarketOpportunity.t) :=
  match opps with
  | [] => ret []
  | (opp, now) :: rest =>
      let* size := check_trade_risk opp portfolio now in
      let* final_opps := apply_risk_sizing portfolio rest in
      if (0 <? size)%Z
      then ret (MarketOpportunity.set_suggested_size opp size :: final_opps)
      else ret final_opps
  end.

(** [find_best_opportunities] from the analysed [results] on. *)
Definition find_best_opportunities (portfolio : gmap string Q)
    (results : list (option MarketOpportunity.t * Q)) (top_n : Z)
    : RiskManager.M (list MarketOpportunity.t) :=
  let* final_opps := apply_risk_sizing portfolio (valid_opps results) in
  ret (slice_to (sort_desc final_opps) top_n).

Close Scope risk_scope.

End TradingEngine.

(** ** Sample data and notions used in the statements *)

(** An opportunity for the examples below. *)
Definition sample (sd : string) (e c p price : Q) (size : Z)
    : MarketOpportunity.t :=
  {| MarketOpportunity.ticker := "KXTEST";
     MarketOpportunity.market_title := "Test market";
     MarketOpportunity.edge := e;
     MarketOpportunity.confidence := c;
     MarketOpportunity.side := sd;
     MarketOpportunity.entry_price := price;
     MarketOpportunity.suggested_size := size;
     MarketOpportunity.reasoning := "[FundamentalStrategy] test";
     MarketOpportunity.liquidity_score := 0.5;
     MarketOpportunity.probability := p;
     MarketOpportunity.timestamp := 0;
     MarketOpportunity.correlation_group := "general" |}.

(** A portfolio snapshot holding only a balance. *)
Definition portfolio_of (balance : Q) : gmap string Q :=
  {[ "balance"%string := balance ]}.

(** A manager under the default configuration that holds one open
    position of 100 contracts at 50 cents in the group "general". *)
Definition manager_with_position : RiskManager.t :=
  let fresh := RiskManager.init RiskConfig.default in
  {| RiskManager.config := RiskManager.config fresh;
     RiskManager.daily_pnl := 0;
     RiskManager.weekly_pnl := 0;
     RiskManager.peak_balance := 0;
     RiskManager.current_drawdown := 0;
     RiskManager.intraday_drawdown := 0;
     RiskManager.active_positions_value := 0;
     RiskManager.active_positions :=
       {[ "KXOLD"%string :=
            {| Position.ticker := "KXOLD";
               Position.side := "yes";
               Position.size := 100;
               Position.entry_price := 50;
               Position.entry_time := 0;
               Position.current_price := None;
               Position.unrealized_pnl := 0;
               Position.market_correlation_group := "general" |} ]};
     RiskManager.trade_history := [];
     RiskManager.hourly_trades := [];
     RiskManager.daily_trades := [];
     RiskManager.ticker_last_trade := ∅;
     RiskManager.volatility_estimate := 0.15;
     RiskManager.var_95 := 0;
     RiskManager.expected_shortfall := 0;
     RiskManager.correlation_groups := ∅;
     RiskManager.price_history := ∅;
     RiskManager.circuit_breakers := RiskManager.circuit_breakers fresh |}.

(** A computation against the risk manager that leaves it as it found it,
    whatever it returns. *)
Definition readonly {A : Type} (m : RiskManager.M A) : Prop :=
  forall s, snd (m s) = s.



(** A call whose operation raises: the clock readings at entry and in
    the exception handler. *)
Definition failed_call {A : Type} (c : Q * Q)
    : Q * CircuitBreaker.operation A :=
  (fst c, CircuitBreaker.raises (snd c)).









(** A list ranked in non-increasing order of [edge * confidence]. *)
Definition ranked_desc : list MarketOpportunity.t -> Prop :=
  StronglySorted
    (fun x y => TradingEngine.rank_key y <= TradingEngine.rank_key x).

(** [o] is an analysed result of positive edge that the risk manager [rm]
    sized at a positive count, carrying that count as its suggested size. *)
Definition risk_approved (rm : RiskManager.t) (pf : gmap string Q)
    (results : list (option MarketOpportunity.t * Q))
    (o : MarketOpportunity.t) : Prop :=
  exists orig now,
    In (Some orig, now) results /\
    0 < MarketOpportunity.edge orig /\
    (0 < fst (RiskManager.check_trade_risk orig pf now rm))%Z /\
    o = MarketOpportunity.set_suggested_size orig
          (fst (RiskManager.check_trade_risk orig pf now rm)).

(** Unfolding of the check into its nested tests, and one case split on
    the outermost pending test. *)
Ltac crt_unfold :=
  unfold RiskManager.check_trade_risk,
    RiskManager._calculate_volatility_adjustment,
    RiskManager._get_correlation_exposure,
    RiskManager.bind, RiskManager.read, RiskManager.ret;
  cbv beta iota.

Ltac crt_step :=
  match goal with
  | |- context [(if ?c then _ else _) ?s] => destruct c eqn:?; cbv beta iota
  end.

(** * Further operations of the same files *)

From Stdlib Require Import Qabs.

(** ** trading_engine.py: AsyncCache.get, delete, hit_rate *)

Module AsyncCacheReads.

Import AsyncCache.

Section WithValue.

Variable V : Type.

(** How the remote read of [get] ends: data that decodes to a value, no
    data, data that [json_loads] rejects, or an exception in the read
    itself. *)
Inductive redis_get_result : Type :=
| redis_hit (value : V)
| redis_miss
| redis_undecodable
| redis_get_raises.

(** What [get] gives back: a value or [None], or the [KeyError] of
    [del self.local_ttl[key]] on a key that map does not hold. *)
Inductive get_result : Type :=
| get_returns (value : option V)
| get_raises_KeyError.

Definition with_counters (self : t V) (hits misses : Z) : t V :=
  {| redis := redis self;
     local_cache := local_cache self;
     local_ttl := local_ttl self;
     default_ttl := default_ttl V self;
     _local_max_size := _local_max_size V self;
     _hits := hits;
     _misses := misses |}.

Definition with_local (self : t V) (cache : dict V) (ttls : dict Q) : t V :=
  {| redis := redis self;
     local_cache := cache;
     local_ttl := ttls;
     default_ttl := default_ttl V self;
     _local_max_size := _local_max_size V self;
     _hits := _hits V self;
     _misses := _misses V self |}.

(** The local part of [get], at clock reading [now]. *)
Definition get_local (self : t V) (key : string) (now : Q)
    : get_result * t V :=
  match dict_get (local_cache self) key with
  | Some value =>
      if match dict_get (local_ttl self) key with
         | Some expiry => Py.ltb now expiry
         | None => false
         end
      then (get_returns (Some value),
            with_counters self (_hits V self + 1) (_misses V self))
      else
        let cache' := dict_pop (local_cache self) key in
        match dict_get (local_ttl self) key with
        | Some _ =>
            (get_returns None,
             with_counters
               (with_local self cache' (dict_pop (local_ttl self) key))
               (_hits V self) (_misses V self + 1))
        | None => (get_raises_KeyError, with_local self cache' (local_ttl self))
        end
  | None =>
      (get_returns None,
       with_counters self (_hits V self) (_misses V self + 1))
  end.

(** [get]: the remote store is tried first when one is configured. *)
Definition get (self : t V) (key : string) (now : Q)
    (remote : redis_get_result) : get_result * t V :=
  if redis self then
    match remote with
    | redis_hit value =>
        (get_returns (Some value),
         with_counters self (_hits V self + 1) (_misses V self))
    | redis_undecodable =>
        get_local (with_counters self (_hits V self + 1) (_misses V self))
                  key now
    | redis_miss | redis_get_raises => get_local self key now
    end
  else get_local self key now.

(** [delete]: whatever the remote delete does, both local maps drop the
    key. *)
Definition delete (self : t V) (key : string) : t V :=
  with_local self (dict_pop (local_cache self) key)
                  (dict_pop (local_ttl self) key).

(** The [hit_rate] property. *)
Definition hit_rate (self : t V) : Q :=
  let total := (_hits V self + _misses V self)%Z in
  if (0 <? total)%Z then inject_Z (_hits V self) / inject_Z total else 0.

End WithValue.

Arguments redis_hit {V} value.
Arguments redis_miss {V}.
Arguments redis_undecodable {V}.
Arguments redis_get_raises {V}.
Arguments get_returns {V} value.
Arguments get_raises_KeyError {V}.
Arguments get_local {V} self key now.
Arguments get {V} self key now remote.
Arguments delete {V} self key.
Arguments hit_rate {V} self.

End AsyncCacheReads.

(** The keys of a dictionary, in order. *)
Definition dict_keys {X : Type} (d : AsyncCache.dict X) : list string :=
  List.map fst d.

(** The two local maps of a cache hold the same keys in the same order,
    each key once. *)
Definition cache_wf {V : Type} (c : AsyncCache.t V) : Prop :=
  List.NoDup (dict_keys (AsyncCache.local_cache c)) /\
  dict_keys (AsyncCache.local_cache c) = dict_keys (AsyncCache.local_ttl c).

(** The cache states a program can reach: the constructor's, and those
    [set], [get] and [delete] lead to, whatever the remote store does. *)
Inductive cache_reachable {V : Type} : AsyncCache.t V -> Prop :=
| reach_init (has_redis : bool) (ttl : Z) :
    cache_reachable (AsyncCache.init V has_redis ttl)
| reach_set (c : AsyncCache.t V) (key : string) (value : V)
    (ttl : option Z) (now : Q) (remote : AsyncCache.setex_result) :
    cache_reachable c ->
    cache_reachable (snd (AsyncCache.set c key value ttl now remote))
| reach_get (c : AsyncCache.t V) (key : string) (now : Q)
    (remote : AsyncCacheReads.redis_get_result V) :
    cache_reachable c ->
    cache_reachable (snd (AsyncCacheReads.get c key now remote))
| reach_delete (c : AsyncCache.t V) (key : string) :
    cache_reachable c ->
    cache_reachable (AsyncCacheReads.delete c key).

(** What every reachable cache state satisfies: well-formed maps, the
    capacity bound, and counters that are not negative. *)
Definition cache_inv {V : Type} (c : AsyncCache.t V) : Prop :=
  cache_wf c /\
  (List.length (AsyncCache.local_cache c)
   <= AsyncCache._local_max_size V c)%nat /\
  (0 <= AsyncCache._hits V c)%Z /\ (0 <= AsyncCache._misses V c)%Z.

(** ** Notions for the circuit breaker *)


(** Every call of the sequence enters no later than [deadline]. *)
Definition all_enter_by {A : Type} (deadline : Q)
    (calls : list (Q * CircuitBreaker.operation A)) : Prop :=
  Forall (fun c => fst c <= deadline) calls.

(** ** risk/manager.py: bookkeeping of the RiskManager *)

Module RiskManagerBook.

Import RiskManager.
Open Scope risk_scope.

(** [deque(maxlen=n).append(x)]: a full buffer drops its oldest entry. *)
Definition deque_append {X : Type} (maxlen : nat) (d : list X) (x : X)
    : list X :=
  let d' := d ++ [x] in
  if (maxlen <? List.length d')%nat then List.tl d' else d'.

(** The buffer sizes fixed in [__init__]. *)
Definition trade_history_maxlen : nat := 1000.
Definition hourly_trades_maxlen : nat := 100.
Definition daily_trades_maxlen : nat := 200.

(** [portfolio.get(key, default)]. *)
Definition portfolio_get (portfolio : gmap string Q) (key : string)
    (default : Q) : Q :=
  match portfolio !! key with
  | Some v => v
  | None => default
  end.

(** [_assess_risk_level]; the allocation is a float division by the
    balance, which raises on a zero balance. *)
Definition _assess_risk_level (opportunity : MarketOpportunity.t)
    (portfolio : gmap string Q) : Py.result RiskLevel :=
  let balance := portfolio_get portfolio "balance" 1 in
  let position_value :=
    (inject_Z (MarketOpportunity.suggested_size opportunity)
     * MarketOpportunity.entry_price opportunity) / 100 in
  if Qeq_bool balance 0 then Py.Raise Py.ZeroDivisionError else
  let allocation_pct := position_value / balance in
  if (Py.ltb 0.20 allocation_pct
      || Py.ltb (MarketOpportunity.edge opportunity) 1)%bool
  then Py.Return CRITICAL
  else if (Py.ltb 0.10 allocation_pct
           || Py.ltb (MarketOpportunity.edge opportunity) 2)%bool
  then Py.Return HIGH
  else if Py.ltb 0.05 allocation_pct then Py.Return MEDIUM
  else Py.Return LOW.

(** [record_trade]; [now] is the clock reading of the method and [stamp]
    the default timestamp of the new [TradeRecord].  The position, the
    last-trade time and the two time buffers are written before the risk
    level is assessed, so they stay written when that raises. *)
Definition record_trade (opportunity : MarketOpportunity.t)
    (num_contracts : Z) (portfolio : gmap string Q) (now stamp : Q)
    : M (Py.result unit) :=
  let ticker := MarketOpportunity.ticker opportunity in
  let position :=
    {| Position.ticker := ticker;
       Position.side := MarketOpportunity.side opportunity;
       Position.size := num_contracts;
       Position.entry_price := MarketOpportunity.entry_price opportunity;
       Position.entry_time := now;
       Position.current_price := None;
       Position.unrealized_pnl := 0;
       Position.market_correlation_group :=
         MarketOpportunity.correlation_group opportunity |} in
  let* s := read (fun s => s) in
  let booked (history : list TradeRecord.t) : t :=
    {| config := config s;
       daily_pnl := daily_pnl s;
       weekly_pnl := weekly_pnl s;
       peak_balance := peak_balance s;
       current_drawdown := current_drawdown s;
       intraday_drawdown := intraday_drawdown s;
       active_positions_value := active_positions_value s;
       active_positions := <[ticker := position]> (active_positions s);
       trade_history := history;
       hourly_trades := deque_append hourly_trades_maxlen (hourly_trades s) now;
       daily_trades := deque_append daily_trades_maxlen (daily_trades s) now;
       ticker_last_trade := <[ticker := now]> (ticker_last_trade s);
       volatility_estimate := volatility_estimate s;
       var_95 := var_95 s;
       expected_shortfall := expected_shortfall s;
       correlation_groups := correlation_groups s;
       price_history := price_history s;
       circuit_breakers := circuit_breakers s |} in
  match _assess_risk_level opportunity portfolio with
  | Py.Raise e =>
      let* _ := write (booked (trade_history s)) in
      ret (Py.Raise e)
  | Py.Return level =>
      let trade :=
        {| TradeRecord.ticker := ticker;
           TradeRecord.side := MarketOpportunity.side opportunity;
           TradeRecord.size := num_contracts;
           TradeRecord.entry_price := MarketOpportunity.entry_price opportunity;
           TradeRecord.exit_price := None;
           TradeRecord.pnl := 0;
           TradeRecord.timestamp := stamp;
           TradeRecord.risk_level := level |} in
      let* _ := write (booked (deque_append trade_history_maxlen
                                 (trade_history s) trade)) in
      ret (Py.Return tt)
  end.

(** Number of entries of a time buffer newer than [since]. *)
Definition recent (since : Q) (times : list Q) : Z :=
  Z.of_nat (List.length (List.filter (fun t => Py.ltb since t) times)).

(** [_update_circuit_breakers] at clock reading [now]; the "volatility"
    entry is left as it is. *)
Definition _update_circuit_breakers (now : Q) : M unit :=
  let* s := read (fun s => s) in
  let cfg := config s in
  let daily_loss_pct := Qabs (daily_pnl s) / Py.max (peak_balance s) 1 in
  let daily_loss' :=
    (Py.ltb (daily_pnl s) (- RiskConfig.max_daily_loss_usd cfg)
     || Py.ltb (RiskConfig.max_daily_loss_pct cfg) daily_loss_pct)%bool in
  let drawdown' :=
    (Py.ltb (RiskConfig.max_drawdown_limit cfg) (current_drawdown s)
     || Py.ltb (RiskConfig.max_intraday_drawdown cfg)
               (intraday_drawdown s))%bool in
  let hour_ago := now - 3600 in
  let day_ago := now - 86400 in
  let recent_hourly := recent hour_ago (hourly_trades s) in
  let recent_daily := recent day_ago (daily_trades s) in
  let trade_frequency' :=
    ((RiskConfig.max_trades_per_hour cfg <=? recent_hourly)%Z
     || (RiskConfig.max_trades_per_day cfg <=? recent_daily)%Z)%bool in
  write
    {| config := config s;
       daily_pnl := daily_pnl s;
       weekly_pnl := weekly_pnl s;
       peak_balance := peak_balance s;
       current_drawdown := current_drawdown s;
       intraday_drawdown := intraday_drawdown s;
       active_positions_value := active_positions_value s;
       active_positions := active_positions s;
       trade_history := trade_history s;
       hourly_trades := hourly_trades s;
       daily_trades := daily_trades s;
       ticker_last_trade := ticker_last_trade s;
       volatility_estimate := volatility_estimate s;
       var_95 := var_95 s;
       expected_shortfall := expected_shortfall s;
       correlation_groups := correlation_groups s;
       price_history := price_history s;
       circuit_breakers :=
         mk_breakers daily_loss' drawdown'
                     (volatility (circuit_breakers s)) trade_frequency' |}.

(** [update_portfolio_state]; [now] is the clock reading of the breaker
    update it ends with. *)
Definition update_portfolio_state (portfolio : gmap string Q) (now : Q)
    : M unit :=
  let balance := portfolio_get portfolio "balance" 0 in
  let active_value := portfolio_get portfolio "active_value" 0 in
  let total_equity := balance + active_value in
  let* s := read (fun s => s) in
  let '(peak1, intraday1) :=
    if Py.ltb (peak_balance s) total_equity
    then (total_equity, 0)
    else (peak_balance s, intraday_drawdown s) in
  let '(current2, intraday2) :=
    if Py.ltb 0 peak1
    then let current := (peak1 - total_equity) / peak1 in
         (current, Py.max intraday1 current)
    else (current_drawdown s, intraday1) in
  let* _ :=
    write
      {| config := config s;
         daily_pnl := daily_pnl s;
         weekly_pnl := weekly_pnl s;
         peak_balance := peak1;
         current_drawdown := current2;
         intraday_drawdown := intraday2;
         active_positions_value := active_value;
         active_positions := active_positions s;
         trade_history := trade_history s;
         hourly_trades := hourly_trades s;
         daily_trades := daily_trades s;
         ticker_last_trade := ticker_last_trade s;
         volatility_estimate := volatility_estimate s;
         var_95 := var_95 s;
         expected_shortfall := expected_shortfall s;
         correlation_groups := correlation_groups s;
         price_history := price_history s;
         circuit_breakers := circuit_breakers s |} in
  _update_circuit_breakers now.

Close Scope risk_scope.

End RiskManagerBook.

(** The breaker entries agree with the figures the manager holds at clock
    reading [now]. *)
Definition breakers_match (now : Q) (rm : RiskManager.t) : Prop :=
  let cfg := RiskManager.config rm in
  let cb := RiskManager.circuit_breakers rm in
  RiskManager.daily_loss cb
  = (Py.ltb (RiskManager.daily_pnl rm) (- RiskConfig.max_daily_loss_usd cfg)
     || Py.ltb (RiskConfig.max_daily_loss_pct cfg)
               (Qabs (RiskManager.daily_pnl rm)
                / Py.max (RiskManager.peak_balance rm) 1))%bool /\
  RiskManager.drawdown cb
  = (Py.ltb (RiskConfig.max_drawdown_limit cfg)
            (RiskManager.current_drawdown rm)
     || Py.ltb (RiskConfig.max_intraday_drawdown cfg)
               (RiskManager.intraday_drawdown rm))%bool /\
  RiskManager.trade_frequency cb
  = ((RiskConfig.max_trades_per_hour cfg
      <=? RiskManagerBook.recent (now - 3600) (RiskManager.hourly_trades rm))%Z
     || (RiskConfig.max_trades_per_day cfg
         <=? RiskManagerBook.recent (now - 86400)
               (RiskManager.daily_trades rm))%Z)%bool.

(** The total equity a portfolio snapshot reports. *)
Definition total_equity (pf : gmap string Q) : Q :=
  RiskManagerBook.portfolio_get pf "balance" 0
  + RiskManagerBook.portfolio_get pf "active_value" 0.

(** The three bounded buffers are within their sizes. *)
Definition buffers_bounded (rm : RiskManager.t) : Prop :=
  (List.length (RiskManager.trade_history rm)
   <= RiskManagerBook.trade_history_maxlen)%nat /\
  (List.length (RiskManager.hourly_trades rm)
   <= RiskManagerBook.hourly_trades_maxlen)%nat /\
  (List.length (RiskManager.daily_trades rm)
   <= RiskManagerBook.daily_trades_maxlen)%nat.

(** ** models.py: TradePerformance, MarketData, OrderBook, TradeExecution *)

Module TradePerformance.

Record t : Type := mk {
  wins : Z;
  losses : Z;
  total_pnl : Q;
  consecutive_wins : Z;
  consecutive_losses : Z;
  max_drawdown : Q;
  peak_balance : Q;
  daily_pnl_pct : Q;
  total_volume : Q;
  avg_trade_size : Q
}.

(** [TradePerformance()] with every default, which is also what [reset]
    leaves. *)
Definition fresh : t :=
  {| wins := 0; losses := 0; total_pnl := 0;
     consecutive_wins := 0; consecutive_losses := 0;
     max_drawdown := 0; peak_balance := 0; daily_pnl_pct := 0;
     total_volume := 0; avg_trade_size := 0 |}.

(** [__post_init__]. *)
Definition post_init (self : t) : t :=
  {| wins := Z.max 0 (wins self);
     losses := Z.max 0 (losses self);
     total_pnl := total_pnl self;
     consecutive_wins := consecutive_wins self;
     consecutive_losses := consecutive_losses self;
     max_drawdown := max_drawdown self;
     peak_balance := peak_balance self;
     daily_pnl_pct := daily_pnl_pct self;
     total_volume := total_volume self;
     avg_trade_size := avg_trade_size self |}.

(** The [win_rate] and [loss_rate] properties. *)
Definition win_rate (self : t) : Q :=
  let total := (wins self + losses self)%Z in
  if (0 <? total)%Z then inject_Z (wins self) / inject_Z total else 0.

Definition loss_rate (self : t) : Q :=
  let total := (wins self + losses self)%Z in
  if (0 <? total)%Z then inject_Z (losses self) / inject_Z total else 0.

(** The [avg_pnl_per_trade] property. *)
Definition avg_pnl_per_trade (self : t) : Q :=
  let total := (wins self + losses self)%Z in
  if (0 <? total)%Z then total_pnl self / inject_Z total else 0.






(** [update_drawdown]. *)
Definition update_drawdown (self : t) (current_balance : Q) : t :=
  let peak :=
    if Py.ltb (peak_balance self) current_balance
    then current_balance else peak_balance self in
  let max_dd :=
    if Py.ltb 0 peak
    then Py.max (max_drawdown self) ((peak - current_balance) / peak)
    else max_drawdown self in
  {| wins := wins self; losses := losses self; total_pnl := total_pnl self;
     consecutive_wins := consecutive_wins self;
     consecutive_losses := consecutive_losses self;
     max_drawdown := max_dd; peak_balance := peak;
     daily_pnl_pct := daily_pnl_pct self; total_volume := total_volume self;
     avg_trade_size := avg_trade_size self |}.

(** [reset]. *)
Definition reset (self : t) : t := fresh.




End TradePerformance.

Module MarketData.

Record t : Type := mk {
  ticker : string;
  title : string;
  status : string;
  yes_bid : Q;
  yes_ask : Q;
  no_bid : Q;
  no_ask : Q;
  volume : Q;
  open_interest : Q;
  last_price : Q
}.

(** The [mid_price] property. *)
Definition mid_price (self : t) : Q :=
  if (Py.ltb 0 (yes_bid self) && Py.ltb 0 (yes_ask self))%bool
  then (yes_bid self + yes_ask self) / 200
  else if Py.ltb 0 (last_price self) then last_price self / 100 else 0.5.

(** The [spread] property. *)
Definition spread (self : t) : Q :=
  if (Py.ltb 0 (yes_bid self) && Py.ltb 0 (yes_ask self))%bool
  then yes_ask self - yes_bid self
  else 0.

(** The [liquidity_score] property. *)
Definition liquidity_score (self : t) : Q :=
  Py.min (Py.max (volume self) 100 / 1000) 1.

End MarketData.

Module OrderBook.

(** A level of the book is a dictionary with the keys "price" and
    "count". *)
Definition level : Type := gmap string Q.

Record t : Type := mk {
  ticker : string;
  yes_bids : list level;
  yes_asks : list level;
  no_bids : list level;
  no_asks : list level
}.

(** [level.get(key, default)]. *)
Definition level_get (l : level) (key : string) (default : Q) : Q :=
  match l !! key with
  | Some v => v
  | None => default
  end.

(** The best price of one side of the book, or the default of an empty
    side. *)
Definition best (levels : list level) (default : Q) : Q :=
  match levels with
  | first :: _ => level_get first "price" default
  | [] => default
  end.

Definition get_best_yes_bid (self : t) : Q := best (yes_bids self) 0.
Definition get_best_yes_ask (self : t) : Q := best (yes_asks self) 100.
Definition get_best_no_bid (self : t) : Q := best (no_bids self) 0.
Definition get_best_no_ask (self : t) : Q := best (no_asks self) 100.

(** [get_mid_price] and [get_spread]. *)
Definition get_mid_price (self : t) (side : string) : Q :=
  if String.eqb side "yes"
  then (get_best_yes_bid self + get_best_yes_ask self) / 200
  else (get_best_no_bid self + get_best_no_ask self) / 200.

Definition get_spread (self : t) (side : string) : Q :=
  if String.eqb side "yes"
  then get_best_yes_ask self - get_best_yes_bid self
  else get_best_no_ask self - get_best_no_bid self.




End OrderBook.

Module TradeExecution.

Record t : Type := mk {
  order_id : string;
  ticker : string;
  side : string;
  size : Z;
  price : Q;
  status : string;
  timestamp : Q;
  filled_size : Z;
  avg_fill_price : Q;
  commission : Q
}.



Definition notional_value (self : t) : Q :=
  (inject_Z (filled_size self) * avg_fill_price self) / 100.

End TradeExecution.




(** ** strategies/manager.py: weights and performance tracking *)

Module StrategyBook.

Import AsyncCache.

(** One entry of [strategy_performance]. *)
Record perf : Type := mk_perf {
  trades : Z;
  wins : Z;
  losses : Z;
  total_pnl : Q;
  avg_pnl : Q
}.

Definition new_perf : perf :=
  {| trades := 0; wins := 0; losses := 0; total_pnl := 0; avg_pnl := 0 |}.

(** The manager's state; a strategy is known here by its class name. *)
Record t : Type := mk {
  strategies : list string;
  strategy_weights : dict Q;
  strategy_performance : dict perf
}.

(** [add_strategy]; [__init__] registers its strategies the same way. *)
Definition add_strategy (self : t) (name : string) (weight : Q) : t :=
  {| strategies := strategies self ++ [name];
     strategy_weights := dict_set (strategy_weights self) name weight;
     strategy_performance := strategy_performance self |}.

(** [__init__]. *)
Definition init (enable_fundamental enable_sentiment enable_momentum : bool)
    : t :=
  let s0 := {| strategies := []; strategy_weights := [];
               strategy_performance := [] |} in
  let s1 := if enable_fundamental
            then add_strategy s0 "FundamentalStrategy" 1.0 else s0 in
  let s2 := if enable_sentiment
            then add_strategy s1 "SentimentStrategy" 0.8 else s1 in
  if enable_momentum then add_strategy s2 "MomentumStrategy" 0.9 else s2.

(** [remove_strategy]. *)
Definition remove_strategy (self : t) (name : string) : t :=
  {| strategies :=
       List.filter (fun s => negb (String.eqb s name)) (strategies self);
     strategy_weights := dict_pop (strategy_weights self) name;
     strategy_performance := strategy_performance self |}.

(** [update_strategy_weight]. *)
Definition update_strategy_weight (self : t) (name : string) (weight : Q)
    : t :=
  match dict_get (strategy_weights self) name with
  | Some _ =>
      {| strategies := strategies self;
         strategy_weights :=
           dict_set (strategy_weights self) name
                    (Py.max 0.1 (Py.min 2.0 weight));
         strategy_performance := strategy_performance self |}
  | None => self
  end.

(** [max(items, key=lambda x: x[1]["avg_pnl"])] with a current best: the
    first item of the largest average wins. *)
Fixpoint max_item (best : string * perf) (items : list (string * perf))
    : string * perf :=
  match items with
  | [] => best
  | it :: rest =>
      if Py.ltb (avg_pnl (snd best)) (avg_pnl (snd it))
      then max_item it rest
      else max_item best rest
  end.

(** [_adjust_weights]. *)
Definition _adjust_weights (self : t) : t :=
  match strategy_performance self with
  | first :: second :: more =>
      let best_strategy := max_item first (second :: more) in
      {| strategies := strategies self;
         strategy_weights :=
           List.map
             (fun kv =>
                if String.eqb (fst kv) (fst best_strategy)
                then (fst kv, Py.min 1.5 (snd kv * 1.05))
                else (fst kv, Py.max 0.5 (snd kv * 0.98)))
             (strategy_weights self);
         strategy_performance := strategy_performance self |}
  | _ => self
  end.

(** [record_strategy_result]; the entry is updated in place, so the
    counts are already written if the average raises. *)
Definition record_strategy_result (self : t) (name : string) (pnl : Q)
    : Py.result unit * t :=
  let p := match dict_get (strategy_performance self) name with
           | Some p => p
           | None => new_perf
           end in
  let trades' := (trades p + 1)%Z in
  let total' := total_pnl p + pnl in
  let wins' := if Py.ltb 0 pnl then (wins p + 1)%Z else wins p in
  let losses' := if Py.ltb 0 pnl then losses p else (losses p + 1)%Z in
  let with_perf (q : perf) : t :=
    {| strategies := strategies self;
       strategy_weights := strategy_weights self;
       strategy_performance :=
         dict_set (strategy_performance self) name q |} in
  if (trades' =? 0)%Z
  then (Py.Raise Py.ZeroDivisionError,
        with_perf {| trades := trades'; wins := wins'; losses := losses';
                     total_pnl := total'; avg_pnl := avg_pnl p |})
  else (Py.Return tt,
        _adjust_weights
          (with_perf {| trades := trades'; wins := wins'; losses := losses';
                        total_pnl := total';
                        avg_pnl := total' / inject_Z trades' |})).

(** The weighting block of [run_strategy] in [analyze_market], applied to
    the opportunity a strategy returned; [learner] is the adaptive weight
    of the learner when one is passed. *)
Definition apply_weight (self : t) (strategy_name : string)
    (learner : option Q) (opp : MarketOpportunity.t) : MarketOpportunity.t :=
  let weight := match dict_get (strategy_weights self) strategy_name with
                | Some w => w
                | None => 1.0
                end in
  let weight := match learner with
                | Some adaptive_weight => weight * adaptive_weight
                | None => weight
                end in
  {| MarketOpportunity.ticker := MarketOpportunity.ticker opp;
     MarketOpportunity.market_title := MarketOpportunity.market_title opp;
     MarketOpportunity.edge := MarketOpportunity.edge opp * weight;
     MarketOpportunity.confidence :=
       Py.min 1.0 (MarketOpportunity.confidence opp * weight);
     MarketOpportunity.side := MarketOpportunity.side opp;
     MarketOpportunity.entry_price := MarketOpportunity.entry_price opp;
     MarketOpportunity.suggested_size := MarketOpportunity.suggested_size opp;
     MarketOpportunity.reasoning :=
       ("[" ++ strategy_name ++ "] " ++ MarketOpportunity.reasoning opp)%string;
     MarketOpportunity.liquidity_score :=
       MarketOpportunity.liquidity_score opp;
     MarketOpportunity.probability := MarketOpportunity.probability opp;
     MarketOpportunity.timestamp := MarketOpportunity.timestamp opp;
     MarketOpportunity.correlation_group :=
       MarketOpportunity.correlation_group opp |}.

End StrategyBook.

(** The managers that [__init__] followed by any calls of
    [update_strategy_weight], [record_strategy_result] and
    [remove_strategy] can produce. *)
Inductive manager_reachable : StrategyBook.t -> Prop :=
| mgr_init (f s m : bool) : manager_reachable (StrategyBook.init f s m)
| mgr_update (st : StrategyBook.t) (name : string) (w : Q) :
    manager_reachable st ->
    manager_reachable (StrategyBook.update_strategy_weight st name w)
| mgr_record (st : StrategyBook.t) (name : string) (pnl : Q) :
    manager_reachable st ->
    manager_reachable (snd (StrategyBook.record_strategy_result st name pnl))
| mgr_remove (st : StrategyBook.t) (name : string) :
    manager_reachable st ->
    manager_reachable (StrategyBook.remove_strategy st name).

(** The bounds every strategy weight keeps, and what every performance
    entry records. *)
Definition weight_in_range (w : Q) : Prop := 0.1 <= w <= 2.

Definition perf_consistent (p : StrategyBook.perf) : Prop :=
  (0 <= StrategyBook.wins p)%Z /\
  (0 <= StrategyBook.losses p)%Z /\
  (1 <= StrategyBook.trades p)%Z /\
  (StrategyBook.trades p = StrategyBook.wins p + StrategyBook.losses p)%Z /\
  StrategyBook.avg_pnl p * inject_Z (StrategyBook.trades p)
  == StrategyBook.total_pnl p.

Definition manager_inv (st : StrategyBook.t) : Prop :=
  Forall (fun kv => weight_in_range (snd kv))
         (StrategyBook.strategy_weights st) /\
  Forall (fun kv => perf_consistent (snd kv))
         (StrategyBook.strategy_performance st).

(** A text without a closing bracket. *)
Definition no_closing_bracket (s : string) : Prop :=
  String.index 0 "]" s = None.

(** The number of analysed results of positive edge that the risk manager
    sizes at a positive count. *)
Definition approved_count (rm : RiskManager.t) (pf : gmap string Q)
    (results : list (option MarketOpportunity.t * Q)) : nat :=
  List.length
    (List.filter
       (fun r => (0 <? fst (RiskManager.check_trade_risk (fst r) pf (snd r) rm))%Z)
       (TradingEngine.valid_opps results)).

(** * Properties *)

(** ** Facts about the Python primitives *)

Section PyFacts.

Lemma ltb_lt (a b : Q) : Py.ltb a b = true <-> a < b.
Proof. unfold Py.ltb, Qlt. apply Z.ltb_lt. Qed.

Lemma ltb_ge (a b : Q) : Py.ltb a b = false <-> b <= a.
Proof. unfold Py.ltb, Qle. rewrite Z.ltb_ge. reflexivity. Qed.

Lemma leb_le (a b : Q) : Py.leb a b = true <-> a <= b.
Proof. apply Qle_bool_iff. Qed.

Lemma leb_gt (a b : Q) : Py.leb a b = false <-> b < a.
Proof.
  split; intro H.
  - destruct (Qlt_le_dec b a) as [Hlt | Hle]; [exact Hlt |].
    apply leb_le in Hle. congruence.
  - destruct (Py.leb a b) eqn:E; [| reflexivity].
    apply leb_le in E. lra.
Qed.

Lemma max_cases (a b : Q) :
  (Py.max a b = a /\ b <= a) \/ (Py.max a b = b /\ a < b).
Proof.
  unfold Py.max. destruct (Py.ltb a b) eqn:E.
  - right. split; [reflexivity | now apply ltb_lt].
  - left. split; [reflexivity | now apply ltb_ge].
Qed.

Lemma min_cases (a b : Q) :
  (Py.min a b = a /\ a <= b) \/ (Py.min a b = b /\ b < a).
Proof.
  unfold Py.min. destruct (Py.ltb b a) eqn:E.
  - right. split; [reflexivity | now apply ltb_lt].
  - left. split; [reflexivity | now apply ltb_ge].
Qed.

Lemma min_le_l (a b : Q) : Py.min a b <= a.
Proof. destruct (min_cases a b) as [[-> H] | [-> H]]; lra. Qed.

Lemma min_le_r (a b : Q) : Py.min a b <= b.
Proof. destruct (min_cases a b) as [[-> H] | [-> H]]; lra. Qed.

Lemma max_ge_l (a b : Q) : a <= Py.max a b.
Proof. destruct (max_cases a b) as [[-> H] | [-> H]]; lra. Qed.

Lemma max_ge_r (a b : Q) : b <= Py.max a b.
Proof. destruct (max_cases a b) as [[-> H] | [-> H]]; lra. Qed.

(** [max(lo, min(hi, x))] lands in [[lo, hi]]. *)
Lemma clamp_bounds (lo hi x : Q) :
  lo <= hi -> lo <= Py.max lo (Py.min hi x) <= hi.
Proof.
  intro Hlh. split; [apply max_ge_l |].
  destruct (max_cases lo (Py.min hi x)) as [[-> _] | [-> _]];
    [exact Hlh | apply min_le_l].
Qed.



(** [int] never rounds a float up past itself once the result is
    positive, and a float below one truncates below one. *)
Lemma int_pos_le (x : Q) : (1 <= Py.int x)%Z -> inject_Z (Py.int x) <= x.
Proof.
  unfold Py.int. destruct x as [n d]. cbn [Qnum Qden]. intro H.
  assert (Hn : (0 <= n)%Z).
  { destruct (Z.lt_ge_cases n 0) as [Hneg | Hge]; [| exact Hge].
    pose proof (Z.quot_opp_l (- n) (Z.pos d) ltac:(lia)) as Ho.
    rewrite Z.opp_involutive in Ho.
    pose proof (Z.quot_pos (- n) (Z.pos d) ltac:(lia) ltac:(lia)).
    lia. }
  unfold Qle, inject_Z. cbn [Qnum Qden].
  rewrite Z.quot_div_nonneg by lia.
  pose proof (Z.mul_div_le n (Z.pos d) ltac:(lia)). lia.
Qed.

End PyFacts.

(** ** MarketOpportunity *)

Section OpportunityFacts.

Import MarketOpportunity.

Lemma lowered_side_cases (s : string) :
  let lowered := Py.lower s in
  let side' :=
    if (String.eqb lowered "yes" || String.eqb lowered "no")%bool
    then lowered else "yes"%string in
  (side' = "yes"%string \/ side' = "no"%string) /\
  (lowered <> "yes"%string -> lowered <> "no"%string -> side' = "yes"%string).
Proof.
  cbv zeta.
  destruct (String.eqb (Py.lower s) "yes") eqn:Ey;
    destruct (String.eqb (Py.lower s) "no") eqn:En; cbn [orb];
    try apply String.eqb_eq in Ey; try apply String.eqb_eq in En;
    split; auto; intros; congruence.
Qed.

(** Construction establishes the field bounds. *)
Lemma post_init_valid (raw : t) : valid (post_init raw).
Proof.
  unfold valid, post_init. cbn [confidence probability liquidity_score
    entry_price edge suggested_size side].
  repeat split;
    try (apply clamp_bounds; lra); try apply max_ge_l; try lia.
  apply (lowered_side_cases (side raw)).
Qed.

End OpportunityFacts.

(** C1. After construction, whatever the arguments, [confidence],
    [probability] and [liquidity_score] lie in [[0,1]], [entry_price] lies
    in [[0,100]], [edge] and [suggested_size] are non-negative, and [side]
    is exactly "yes" or "no"; a side whose lower-cased text is neither is
    normalised to "yes". *)
Theorem post_init_clamps (raw : MarketOpportunity.t) :
  let o := MarketOpportunity.post_init raw in
  0 <= MarketOpportunity.confidence o <= 1 /\
  0 <= MarketOpportunity.probability o <= 1 /\
  0 <= MarketOpportunity.liquidity_score o <= 1 /\
  0 <= MarketOpportunity.entry_price o <= 100 /\
  0 <= MarketOpportunity.edge o /\
  (0 <= MarketOpportunity.suggested_size o)%Z /\
  (MarketOpportunity.side o = "yes"%string
   \/ MarketOpportunity.side o = "no"%string) /\
  (Py.lower (MarketOpportunity.side raw) <> "yes"%string ->
   Py.lower (MarketOpportunity.side raw) <> "no"%string ->
   MarketOpportunity.side o = "yes"%string).
Proof.
  cbv zeta.
  pose proof (post_init_valid raw) as Hv. unfold MarketOpportunity.valid in Hv.
  destruct Hv as (Hc & Hp & Hl & He & Hedge & Hsz & Hside).
  repeat (split; [assumption |]).
  apply (lowered_side_cases (MarketOpportunity.side raw)).
Qed.

Lemma post_init_clamps_witness :
  MarketOpportunity.side
    (MarketOpportunity.post_init (sample "Maybe" (-1) 7 (-3) 250 (-4)))
  = "yes"%string.
Proof.
  apply (post_init_clamps (sample "Maybe" (-1) 7 (-3) 250 (-4)));
    cbn; discriminate.
Defined.

(** C6 (the code as it is).  On side "yes" the expected value is
    [p * (100 - price) - (1 - p) * price].  On any other side the win
    probability and the payout are mirrored, [1 - p] and [price], but the
    amount lost stays [price]: with side "no", probability 0.5 and entry
    price 30 the code yields 0, where the mirrored pair, which loses
    [100 - price], gives -20. *)
Theorem expected_value_no_side_unmirrored :
  (forall o, MarketOpportunity.side o = "yes"%string ->
     MarketOpportunity.expected_value o
     = MarketOpportunity.probability o * (100 - MarketOpportunity.entry_price o)
       - (1 - MarketOpportunity.probability o) * MarketOpportunity.entry_price o)
  /\
  (forall o, MarketOpportunity.side o = "no"%string ->
     MarketOpportunity.expected_value o
     = (1 - MarketOpportunity.probability o) * MarketOpportunity.entry_price o
       - (1 - (1 - MarketOpportunity.probability o))
         * MarketOpportunity.entry_price o)
  /\
  (let o := sample "no" 5 0.8 0.5 30 1 in
   MarketOpportunity.expected_value o == 0 /\
   ~ MarketOpportunity.expected_value o
     == (1 - MarketOpportunity.probability o) * MarketOpportunity.entry_price o
        - MarketOpportunity.probability o
          * (100 - MarketOpportunity.entry_price o)).
Proof.
  split; [| split].
  - intros o Hs. unfold MarketOpportunity.expected_value. rewrite Hs. reflexivity.
  - intros o Hs. unfold MarketOpportunity.expected_value. rewrite Hs. reflexivity.
  - cbv zeta. split; [reflexivity |]. intro H. discriminate H.
Qed.

Lemma expected_value_no_side_unmirrored_witness :
  MarketOpportunity.expected_value (sample "no" 5 0.8 0.5 30 1)
  = (1 - 0.5) * 30 - (1 - (1 - 0.5)) * 30.
Proof.
  apply (proj1 (proj2 expected_value_no_side_unmirrored)
           (sample "no" 5 0.8 0.5 30 1)).
  reflexivity.
Defined.

(** ** RiskManager.check_trade_risk *)

Section ArithmeticFacts.

Lemma div100 (x : Q) : x / 100 == x * (1 # 100).
Proof. reflexivity. Qed.

(** A count of contracts bounded by [x * 100 / e] costs at most [x]
    dollars at [e] cents each. *)
Lemma cost_le (a x e : Q) : 0 < e -> a <= x * 100 / e -> a * e / 100 <= x.
Proof.
  intros He H.
  assert (H1 : a * e <= x * 100 / e * e) by (apply Qmult_le_compat_r; lra).
  assert (H2 : x * 100 / e * e == x * 100) by (field; lra).
  rewrite H2 in H1. rewrite div100. lra.
Qed.






Lemma min_glb (x a b : Q) : x <= a -> x <= b -> x <= Py.min a b.
Proof.
  intros Ha Hb. destruct (min_cases a b) as [[-> _] | [-> _]]; assumption.
Qed.

End ArithmeticFacts.

Section RiskFacts.

Import RiskManager.

Lemma readonly_ret {A : Type} (a : A) : readonly (ret a).
Proof. intro s. reflexivity. Qed.

Lemma readonly_read {A : Type} (f : t -> A) : readonly (read f).
Proof. intro s. reflexivity. Qed.

Lemma readonly_bind {A B : Type} (m : M A) (k : A -> M B) :
  readonly m -> (forall a, readonly (k a)) -> readonly (bind m k).
Proof.
  intros Hm Hk s. unfold bind. specialize (Hm s).
  destruct (m s) as [a s']. cbn in Hm. subst s'. apply Hk.
Qed.

(** One syntactic step through a computation built from reads only. *)
Ltac readonly_step :=
  first
    [ apply readonly_ret
    | apply readonly_read
    | apply readonly_bind; [| intro]
    | match goal with
      | |- readonly (if ?c then _ else _) => destruct c
      | |- readonly (match ?x with _ => _ end) => destruct x
      end
    | progress cbv zeta ].

Lemma check_trade_risk_readonly o pf now :
  readonly (check_trade_risk o pf now).
Proof.
  unfold check_trade_risk, _calculate_volatility_adjustment,
    _get_correlation_exposure.
  repeat readonly_step.
Qed.

(** The state after the check is the state before it. *)
Lemma check_trade_risk_run o pf now rm :
  check_trade_risk o pf now rm = (fst (check_trade_risk o pf now rm), rm).
Proof.
  pose proof (check_trade_risk_readonly o pf now rm) as H.
  destruct (check_trade_risk o pf now rm) as [n s]. cbn in *. now subst.
Qed.

End RiskFacts.

(** C7. [check_trade_risk] only reads the manager: the state after a call
    is the state before it, and a second call with the same opportunity,
    portfolio and clock reading returns the same count. *)
Theorem check_trade_risk_deterministic_readonly
    (o : MarketOpportunity.t) (pf : gmap string Q) (now : Q)
    (rm : RiskManager.t) :
  let first := RiskManager.check_trade_risk o pf now rm in
  let second := RiskManager.check_trade_risk o pf now (snd first) in
  snd first = rm /\ snd second = rm /\ fst second = fst first.
Proof.
  cbv zeta. rewrite (check_trade_risk_run o pf now rm). cbn [fst snd].
  rewrite (check_trade_risk_run o pf now rm). cbn [fst snd]. auto.
Qed.



(** A write in between two checks can change the answer: the open
    position fills the concentration limit of its group and the check
    rejects; once [record_trade_result] has removed the position the same
    check approves 20 contracts. *)
Lemma record_trade_result_changes_sizing :
  let o := sample "yes" 5 0.8 0.6 50 0 in
  let rm := manager_with_position in
  let rm' := snd (RiskManager.record_trade_result "KXOLD" 1 (Some 55) rm) in
  fst (RiskManager.check_trade_risk o (portfolio_of 100) 0 rm) = 0%Z /\
  fst (RiskManager.check_trade_risk o (portfolio_of 100) 0 rm') = 20%Z.
Proof. cbv zeta. split; vm_compute; reflexivity. Qed.









(** ** CircuitBreaker *)

Section BreakerFacts.

Import CircuitBreaker.

Context {A : Type}.

Lemma run_app (cb : t) (l1 l2 : list (Q * operation A)) :
  run cb (l1 ++ l2) = run (run cb l1) l2.
Proof.
  revert cb. induction l1 as [| [now op] l1 IH]; intro cb; cbn; [reflexivity |].
  apply IH.
Qed.

Lemma failures_cons (c : Q * operation A) (l : list (Q * operation A)) :
  failures (c :: l) = ((if is_raise c then 1 else 0) + failures l)%Z.
Proof.
  unfold failures. cbn [List.filter]. destruct (is_raise c); cbn [List.length]; lia.
Qed.

Lemma failures_failed (calls : list (Q * Q)) :
  failures (List.map (@failed_call A) calls) = Z.of_nat (List.length calls).
Proof.
  induction calls as [| c calls IH]; [reflexivity |].
  cbn [List.map]. rewrite failures_cons, IH. cbn [is_raise failed_call snd List.length].
  lia.
Qed.

(** While the breaker is closed a returning operation changes nothing. *)
Lemma call_closed_returns (cb : t) (now : Q) (a : A) :
  state cb = st_closed -> call cb now (returns a) = (Returned a, cb).
Proof.
  intro Hs. unfold call, enter, on_success. rewrite Hs. cbn [state_eqb].
  rewrite Hs. reflexivity.
Qed.

(** While it stays below the threshold a closed breaker only counts. *)
Lemma run_closed_counts (calls : list (Q * operation A)) (cb : t) :
  state cb = st_closed ->
  (failure_count cb + failures calls < failure_threshold cb)%Z ->
  let cb' := run cb calls in
  state cb' = st_closed /\
  failure_count cb' = (failure_count cb + failures calls)%Z /\
  failure_threshold cb' = failure_threshold cb /\
  recovery_timeout cb' = recovery_timeout cb.
Proof.
  revert cb. induction calls as [| [now op] calls IH]; intros cb Hs Hlt.
  - cbn. unfold failures. cbn. repeat split; auto; lia.
  - rewrite failures_cons in Hlt. cbn [run]. destruct op as [a | raised_at].
    + rewrite (call_closed_returns cb now a Hs). cbn [snd].
      cbn [is_raise snd] in Hlt.
      destruct (IH cb Hs ltac:(lia)) as (H1 & H2 & H3 & H4).
      rewrite failures_cons. cbn [is_raise snd]. repeat split; auto; lia.
    + cbn [is_raise snd] in Hlt.
      pose proof (Zle_0_nat (List.length (List.filter is_raise calls))) as Hnn.
      fold (failures calls) in Hnn.
      unfold call, enter. rewrite Hs. cbn [state_eqb snd].
      set (cb1 := on_failure cb raised_at).
      assert (Hs1 : state cb1 = st_closed).
      { unfold cb1, on_failure. cbn [state].
        destruct (Z.leb_spec (failure_threshold cb) (failure_count cb + 1));
          [lia | exact Hs]. }
      assert (Hc1 : failure_count cb1 = (failure_count cb + 1)%Z) by reflexivity.
      assert (Ht1 : failure_threshold cb1 = failure_threshold cb) by reflexivity.
      destruct (IH cb1 Hs1 ltac:(lia)) as (H1 & H2 & H3 & H4).
      rewrite failures_cons. cbn [is_raise snd]. repeat split; auto; try lia.
Qed.

(** The failure that reaches the threshold opens a closed breaker. *)
Lemma call_closed_raises_opens (cb : t) (now raised_at : Q) :
  state cb = st_closed ->
  (failure_threshold cb <= failure_count cb + 1)%Z ->
  call cb now (@raises A raised_at)
  = (Reraised,
     {| failure_threshold := failure_threshold cb;
        recovery_timeout := recovery_timeout cb;
        failure_count := failure_count cb + 1;
        last_failure_time := Some raised_at;
        state := st_open |}).
Proof.
  intros Hs Hle. unfold call, enter, on_failure. rewrite Hs. cbn [state_eqb].
  destruct (Z.leb_spec (failure_threshold cb) (failure_count cb + 1));
    [reflexivity | lia].
Qed.

End BreakerFacts.

(** The breaker after [threshold] failed calls in a row, the last one
    raising at [last_t], starting from a fresh breaker. *)
Lemma run_failures_opens (A : Type) (threshold timeout : Z)
    (calls : list (Q * Q)) (last_now last_t : Q) :
  Z.of_nat (List.length calls) = (threshold - 1)%Z ->
  CircuitBreaker.run (CircuitBreaker.init threshold timeout)
    (List.map (@failed_call A) (calls ++ [(last_now, last_t)]))
  = {| CircuitBreaker.failure_threshold := threshold;
       CircuitBreaker.recovery_timeout := timeout;
       CircuitBreaker.failure_count := threshold;
       CircuitBreaker.last_failure_time := Some last_t;
       CircuitBreaker.state := CircuitBreaker.st_open |}.
Proof.
  intro Hlen. rewrite List.map_app, run_app.
  set (cb0 := CircuitBreaker.run _ (List.map failed_call calls)).
  destruct (run_closed_counts (List.map (@failed_call A) calls)
              (CircuitBreaker.init threshold timeout) eq_refl)
    as (Hs & Hc & Ht & Hr).
  { rewrite failures_failed. cbn. lia. }
  fold cb0 in Hs, Hc, Ht, Hr. rewrite failures_failed in Hc.
  cbn [CircuitBreaker.init CircuitBreaker.failure_count
       CircuitBreaker.failure_threshold CircuitBreaker.recovery_timeout]
    in Hc, Ht, Hr.
  cbn [List.map CircuitBreaker.run failed_call fst snd].
  rewrite (call_closed_raises_opens cb0 last_now last_t Hs) by lia.
  cbn [snd]. rewrite Ht, Hr, Hc. f_equal. lia.
Qed.

(** C3. From a fresh closed breaker, [failure_threshold] failed calls in
    a row leave it open; while no more than [recovery_timeout] has passed
    since the recorded failure time a call is rejected with
    [CircuitBreakerOpen]; once more has passed the breaker goes half-open
    and lets the call through: a trial that returns closes it with the
    counter at 0, a trial that raises opens it again with the failure time
    set anew. *)
Theorem breaker_lifecycle (A : Type) (threshold timeout : Z)
    (calls : list (Q * Q)) (last_now last_t : Q) :
  Z.of_nat (List.length calls) = (threshold - 1)%Z ->
  let cb :=
    CircuitBreaker.run (CircuitBreaker.init threshold timeout)
      (List.map (@failed_call A) (calls ++ [(last_now, last_t)])) in
  CircuitBreaker.state cb = CircuitBreaker.st_open /\
  (forall now (op : CircuitBreaker.operation A),
     now - last_t <= inject_Z timeout ->
     CircuitBreaker.call cb now op = (CircuitBreaker.CircuitBreakerOpen, cb)) /\
  (forall now,
     ~ last_t == 0 ->
     inject_Z timeout < now - last_t ->
     CircuitBreaker.enter cb now
     = Some (CircuitBreaker.with_state cb CircuitBreaker.st_half_open) /\
     (forall a : A,
        exists cb',
          CircuitBreaker.call cb now (CircuitBreaker.returns a)
          = (CircuitBreaker.Returned a, cb') /\
          CircuitBreaker.state cb' = CircuitBreaker.st_closed /\
          CircuitBreaker.failure_count cb' = 0%Z) /\
     (forall raised_at : Q,
        exists cb',
          CircuitBreaker.call cb now (@CircuitBreaker.raises A raised_at)
          = (CircuitBreaker.Reraised, cb') /\
          CircuitBreaker.state cb' = CircuitBreaker.st_open /\
          CircuitBreaker.last_failure_time cb' = Some raised_at)).
Proof.
  intro Hlen. cbv zeta. rewrite (run_failures_opens A _ _ _ _ _ Hlen).
  split; [reflexivity |]. split.
  - intros now op Hle.
    unfold CircuitBreaker.call, CircuitBreaker.enter.
    cbn [CircuitBreaker.state CircuitBreaker.state_eqb
         CircuitBreaker.last_failure_time CircuitBreaker.recovery_timeout].
    apply ltb_ge in Hle. rewrite Hle, andb_false_r. reflexivity.
  - intros now Hnz Hgt.
    assert (Henter :
      CircuitBreaker.enter
        {| CircuitBreaker.failure_threshold := threshold;
           CircuitBreaker.recovery_timeout := timeout;
           CircuitBreaker.failure_count := threshold;
           CircuitBreaker.last_failure_time := Some last_t;
           CircuitBreaker.state := CircuitBreaker.st_open |} now
      = Some {| CircuitBreaker.failure_threshold := threshold;
                CircuitBreaker.recovery_timeout := timeout;
                CircuitBreaker.failure_count := threshold;
                CircuitBreaker.last_failure_time := Some last_t;
                CircuitBreaker.state := CircuitBreaker.st_half_open |}).
    { unfold CircuitBreaker.enter.
      cbn [CircuitBreaker.state CircuitBreaker.state_eqb
           CircuitBreaker.last_failure_time CircuitBreaker.recovery_timeout].
      apply ltb_lt in Hgt. rewrite Hgt.
      destruct (Qeq_bool last_t 0) eqn:E;
        [apply Qeq_bool_iff in E; contradiction | reflexivity]. }
    split; [exact Henter |]. split.
    + intro a. eexists. unfold CircuitBreaker.call. rewrite Henter.
      split; [reflexivity |]. split; reflexivity.
    + intro raised_at. eexists. unfold CircuitBreaker.call. rewrite Henter.
      split; [reflexivity |].
      cbn [CircuitBreaker.on_failure CircuitBreaker.state
           CircuitBreaker.last_failure_time CircuitBreaker.failure_threshold
           CircuitBreaker.failure_count].
      split; [| reflexivity].
      destruct (Z.leb_spec threshold (threshold + 1)); [reflexivity | lia].
Qed.

Lemma breaker_lifecycle_witness :
  CircuitBreaker.state
    (CircuitBreaker.run (CircuitBreaker.init 3 30)
       (List.map (@failed_call unit) ([(1, 2); (3, 4)] ++ [(5, 6)])))
  = CircuitBreaker.st_open.
Proof.
  apply (breaker_lifecycle unit 3 30 [(1, 2); (3, 4)] 5 6).
  reflexivity.
Defined.

(** C9. A returning operation run while the breaker is closed leaves the
    counter and the state as they were; a returning operation changes the
    counter only as a half-open trial; so the failures that open the
    breaker add up across successes in between. *)
Theorem closed_success_keeps_count (A : Type) :
  (forall cb now (a : A),
     CircuitBreaker.state cb = CircuitBreaker.st_closed ->
     CircuitBreaker.call cb now (CircuitBreaker.returns a)
     = (CircuitBreaker.Returned a, cb))
  /\
  (forall cb now (a : A),
     CircuitBreaker.failure_count
       (snd (CircuitBreaker.call cb now (CircuitBreaker.returns a)))
     <> CircuitBreaker.failure_count cb ->
     exists trial,
       CircuitBreaker.enter cb now = Some trial /\
       CircuitBreaker.state trial = CircuitBreaker.st_half_open)
  /\
  (forall threshold timeout (calls : list (Q * CircuitBreaker.operation A)),
     (CircuitBreaker.failures calls < threshold)%Z ->
     let cb := CircuitBreaker.run (CircuitBreaker.init threshold timeout) calls in
     CircuitBreaker.state cb = CircuitBreaker.st_closed /\
     CircuitBreaker.failure_count cb = CircuitBreaker.failures calls)
  /\
  (forall threshold timeout (calls : list (Q * CircuitBreaker.operation A))
          (now raised_at : Q),
     CircuitBreaker.failures calls = (threshold - 1)%Z ->
     CircuitBreaker.state
       (CircuitBreaker.run (CircuitBreaker.init threshold timeout)
          (calls ++ [(now, CircuitBreaker.raises raised_at)]))
     = CircuitBreaker.st_open).
Proof.
  split; [| split; [| split]].
  - intros cb now a Hs. now apply call_closed_returns.
  - intros cb now a Hne. unfold CircuitBreaker.call in Hne.
    destruct (CircuitBreaker.enter cb now) as [trial |] eqn:He;
      [| cbn in Hne; congruence].
    exists trial. split; [reflexivity |].
    cbn [snd] in Hne. unfold CircuitBreaker.on_success in Hne.
    destruct (CircuitBreaker.state trial) eqn:Hs; cbn in Hne;
      try reflexivity; exfalso; apply Hne;
      unfold CircuitBreaker.enter in He;
      destruct (CircuitBreaker.state_eqb (CircuitBreaker.state cb)
                  CircuitBreaker.st_open) eqn:Eo.
    all: try (injection He as <-; reflexivity).
    all: destruct (CircuitBreaker.last_failure_time cb) as [last |];
      [| discriminate He].
    all: destruct (_ && _)%bool; [| discriminate He].
    all: injection He as <-; cbn in Hs; discriminate Hs.
  - intros threshold timeout calls Hlt. cbv zeta.
    destruct (run_closed_counts calls (CircuitBreaker.init threshold timeout)
                eq_refl) as (Hs & Hc & _ & _).
    { cbn. lia. }
    split; [exact Hs |]. rewrite Hc. cbn. lia.
  - intros threshold timeout calls now raised_at Hf. rewrite run_app.
    destruct (run_closed_counts calls (CircuitBreaker.init threshold timeout)
                eq_refl) as (Hs & Hc & Ht & _).
    { cbn. lia. }
    cbn [CircuitBreaker.run].
    rewrite (call_closed_raises_opens _ now raised_at Hs).
    + reflexivity.
    + rewrite Ht, Hc. cbn. lia.
Qed.

Lemma closed_success_keeps_count_witness :
  CircuitBreaker.state
    (CircuitBreaker.run (CircuitBreaker.init 2 30)
       ([(1, CircuitBreaker.raises 2); (3, CircuitBreaker.returns tt)]
        ++ [(5, CircuitBreaker.raises 6)]))
  = CircuitBreaker.st_open.
Proof.
  apply (proj2 (proj2 (proj2 (closed_success_keeps_count unit))) 2%Z 30%Z).
  reflexivity.
Defined.

(** ** AsyncCache.set *)

Section CacheFacts.

Import AsyncCache.

Context {X : Type}.


Lemma dict_get_pop_ne (d : dict X) (k k' : string) :
  k' <> k -> dict_get (dict_pop d k') k = dict_get d k.
Proof.
  intro Hne. induction d as [| [k0 x0] d IH]; cbn; [reflexivity |].
  destruct (String.eqb k0 k') eqn:E1.
  - apply String.eqb_eq in E1. subst k0.
    destruct (String.eqb k' k) eqn:E2; [| reflexivity].
    apply String.eqb_eq in E2. contradiction.
  - cbn. destruct (String.eqb k0 k); [reflexivity | exact IH].
Qed.

End CacheFacts.





(** ** StrategyManager.aggregate_signals *)

Section SumFacts.

Context {X : Type}.









End SumFacts.

Section ConsensusFacts.

Import MarketOpportunity.





End ConsensusFacts.









(** ** TradingEngine.find_best_opportunities *)

Section SelectionFacts.

Import TradingEngine.

Lemma valid_opps_In (results : list (option MarketOpportunity.t * Q))
    (o : MarketOpportunity.t) (now : Q) :
  In (o, now) (valid_opps results) ->
  In (Some o, now) results /\ 0 < MarketOpportunity.edge o.
Proof.
  unfold valid_opps. rewrite List.in_flat_map.
  intros ([[o' |] now'] & Hin & Hx); cbn [fst snd] in Hx; [| destruct Hx].
  destruct (Py.ltb 0 (MarketOpportunity.edge o')) eqn:E; [| destruct Hx].
  destruct Hx as [Hx | []]. injection Hx as -> ->.
  split; [exact Hin | now apply ltb_lt].
Qed.

(** The sizing loop leaves the manager alone and keeps exactly the
    opportunities sized at a positive count. *)
Lemma apply_risk_sizing_spec (pf : gmap string Q)
    (opps : list (MarketOpportunity.t * Q)) (rm : RiskManager.t) :
  snd (apply_risk_sizing pf opps rm) = rm /\
  forall o, In o (fst (apply_risk_sizing pf opps rm)) ->
    exists orig now,
      In (orig, now) opps /\
      (0 < fst (RiskManager.check_trade_risk orig pf now rm))%Z /\
      o = MarketOpportunity.set_suggested_size orig
            (fst (RiskManager.check_trade_risk orig pf now rm)).
Proof.
  induction opps as [| [opp now] rest IH].
  - cbn. split; [reflexivity | intros o []].
  - cbn [apply_risk_sizing]. unfold RiskManager.bind.
    rewrite (check_trade_risk_run opp pf now rm).
    destruct IH as [IHs IHo].
    destruct (apply_risk_sizing pf rest rm) as [final s'] eqn:Er.
    cbn [fst snd] in IHs, IHo. subst s'.
    destruct (Z.ltb_spec 0 (fst (RiskManager.check_trade_risk opp pf now rm)))
      as [Hpos | Hnon]; unfold RiskManager.ret; cbn [fst snd].
    + split; [reflexivity |]. intros o [<- | Ho].
      * exists opp, now. split; [now left | split; [exact Hpos | reflexivity]].
      * destruct (IHo o Ho) as (orig & t & Hin & H1 & H2).
        exists orig, t. split; [now right | split; assumption].
    + split; [reflexivity |]. intros o Ho.
      destruct (IHo o Ho) as (orig & t & Hin & H1 & H2).
      exists orig, t. split; [now right | split; assumption].
Qed.

Lemma insert_desc_In (x y : MarketOpportunity.t)
    (l : list MarketOpportunity.t) :
  In y (insert_desc x l) -> y = x \/ In y l.
Proof.
  induction l as [| z l IH]; cbn.
  - intros [<- | []]. now left.
  - destruct (Py.leb (rank_key z) (rank_key x)).
    + intros [<- | H]; [now left | now right].
    + intros [<- | H]; [right; now left |].
      destruct (IH H) as [-> | Hl]; [now left | right; now right].
Qed.

Lemma sort_desc_In (y : MarketOpportunity.t) (l : list MarketOpportunity.t) :
  In y (sort_desc l) -> In y l.
Proof.
  induction l as [| x l IH]; cbn; [tauto |].
  intro H. destruct (insert_desc_In x y _ H) as [-> | Hl];
    [now left | right; now apply IH].
Qed.

Lemma insert_desc_ranked (x : MarketOpportunity.t)
    (l : list MarketOpportunity.t) :
  ranked_desc l -> ranked_desc (insert_desc x l).
Proof.
  unfold ranked_desc. induction l as [| z l IH]; intro Hs; cbn.
  - constructor; constructor.
  - apply StronglySorted_inv in Hs. destruct Hs as [Hl Hz].
    rewrite List.Forall_forall in Hz.
    destruct (Py.leb (rank_key z) (rank_key x)) eqn:E.
    + apply leb_le in E. constructor.
      * constructor; [exact Hl | now apply List.Forall_forall].
      * apply List.Forall_forall. intros w [<- | Hw]; [exact E |].
        pose proof (Hz w Hw). lra.
    + apply leb_gt in E. constructor; [now apply IH |].
      apply List.Forall_forall. intros w Hw.
      destruct (insert_desc_In x w l Hw) as [-> | Hl']; [lra | now apply Hz].
Qed.

Lemma sort_desc_ranked (l : list MarketOpportunity.t) :
  ranked_desc (sort_desc l).
Proof.
  induction l as [| x l IH]; cbn.
  - constructor.
  - now apply insert_desc_ranked.
Qed.

Lemma firstn_In {T : Type} (n : nat) (l : list T) (x : T) :
  In x (firstn n l) -> In x l.
Proof.
  revert l. induction n as [| n IH]; intros [| y l]; cbn; try tauto.
  intros [<- | H]; [now left | right; now apply IH].
Qed.

Lemma firstn_ranked (n : nat) (l : list MarketOpportunity.t) :
  ranked_desc l -> ranked_desc (firstn n l).
Proof.
  unfold ranked_desc. revert l.
  induction n as [| n IH]; intros [| y l] Hs; cbn; try constructor.
  - apply IH. now apply StronglySorted_inv in Hs.
  - apply StronglySorted_inv in Hs. destruct Hs as [_ Hy].
    rewrite List.Forall_forall in *. intros w Hw. apply Hy.
    now apply firstn_In in Hw.
Qed.

End SelectionFacts.

(** C8. The list [find_best_opportunities] returns holds only analysed
    opportunities of positive edge that the risk manager sized at a
    positive count, each carrying that count as its suggested size; it is
    in non-increasing order of [edge * confidence]; and for [top_n >= 0]
    it has at most [top_n] elements. *)
Theorem find_best_opportunities_ranked (rm : RiskManager.t)
    (pf : gmap string Q) (results : list (option MarketOpportunity.t * Q))
    (top_n : Z) :
  (0 <= top_n)%Z ->
  let out := fst (TradingEngine.find_best_opportunities pf results top_n rm) in
  (forall o, In o out ->
     0 < MarketOpportunity.edge o /\
     (0 < MarketOpportunity.suggested_size o)%Z /\
     risk_approved rm pf results o) /\
  ranked_desc out /\
  (Z.of_nat (List.length out) <= top_n)%Z.
Proof.
  intro Hn. cbv zeta.
  unfold TradingEngine.find_best_opportunities, RiskManager.bind,
    RiskManager.ret.
  destruct (apply_risk_sizing_spec pf (TradingEngine.valid_opps results) rm)
    as [_ Hsel].
  destruct (TradingEngine.apply_risk_sizing pf
              (TradingEngine.valid_opps results) rm) as [final s'].
  cbn [fst snd] in *. unfold TradingEngine.slice_to.
  destruct (Z.leb_spec 0 top_n) as [_ | Hneg]; [| lia].
  split; [| split].
  - intros o Ho. apply firstn_In, sort_desc_In in Ho.
    destruct (Hsel o Ho) as (orig & now & Hin & Hpos & ->).
    apply valid_opps_In in Hin. destruct Hin as [Hin Hedge].
    split; [exact Hedge |]. split; [exact Hpos |].
    exists orig, now. auto.
  - apply firstn_ranked, sort_desc_ranked.
  - pose proof (List.firstn_le_length (Z.to_nat top_n)
                  (TradingEngine.sort_desc final)). lia.
Qed.

Lemma find_best_opportunities_ranked_witness :
  (Z.of_nat
     (List.length
        (fst (TradingEngine.find_best_opportunities (portfolio_of 100)
                [(Some (sample "yes" 5 0.8 0.6 50 0), 0%Q);
                 (None, 0%Q);
                 (Some (sample "yes" 9 0.9 0.6 50 0), 0%Q);
                 (Some (sample "yes" 7 0.8 0.4 50 0), 0%Q)]
                1 (RiskManager.init RiskConfig.default)))) <= 1)%Z.
Proof.
  apply (find_best_opportunities_ranked (RiskManager.init RiskConfig.default)
           (portfolio_of 100)).
  lia.
Defined.


(** * Further properties *)

(** ** AsyncCache: the local maps as one dictionary *)

Section DictFacts.

Import AsyncCache.

Lemma dict_get_None_keys {X : Type} (d : dict X) (k : string) :
  dict_get d k = None <-> ~ In k (dict_keys d).
Proof.
  induction d as [| [k' x] d IH]; cbn.
  - tauto.
  - destruct (String.eqb_spec k' k) as [-> | Hne].
    + split; [discriminate | intro H; exfalso; apply H; now left].
    + rewrite IH. split; [intros H [E | Hin]; [congruence | tauto] | tauto].
Qed.

Lemma dict_get_same_keys {X Y : Type} (d : dict X) (d' : dict Y) (k : string) :
  dict_keys d = dict_keys d' ->
  (dict_get d k = None <-> dict_get d' k = None).
Proof.
  intro H. rewrite !dict_get_None_keys, H. tauto.
Qed.

Lemma dict_set_keys {X Y : Type} (d : dict X) (d' : dict Y) (k : string) (x : X) (y : Y) :
  dict_keys d = dict_keys d' ->
  dict_keys (dict_set d k x) = dict_keys (dict_set d' k y).
Proof.
  revert d'. induction d as [| [k1 x1] d IH]; intros [| [k2 y2] d'] H;
    cbn in *; try discriminate; [reflexivity |].
  injection H as -> H.
  destruct (String.eqb k2 k); cbn; f_equal; [exact H | apply IH; exact H].
Qed.

Lemma dict_pop_keys {X Y : Type} (d : dict X) (d' : dict Y) (k : string) :
  dict_keys d = dict_keys d' ->
  dict_keys (dict_pop d k) = dict_keys (dict_pop d' k).
Proof.
  revert d'. induction d as [| [k1 x1] d IH]; intros [| [k2 y2] d'] H;
    cbn in *; try discriminate; [reflexivity |].
  injection H as -> H.
  destruct (String.eqb k2 k); cbn; [exact H | f_equal; apply IH; exact H].
Qed.

Lemma dict_set_keys_In {X : Type} (d : dict X) (k k' : string) (x : X) :
  In k' (dict_keys (dict_set d k x)) <-> k' = k \/ In k' (dict_keys d).
Proof.
  induction d as [| [k1 x1] d IH]; cbn.
  - intuition congruence.
  - destruct (String.eqb_spec k1 k) as [-> | Hne]; cbn.
    + intuition congruence.
    + rewrite IH. intuition congruence.
Qed.

Lemma dict_pop_keys_In {X : Type} (d : dict X) (k k' : string) :
  In k' (dict_keys (dict_pop d k)) -> In k' (dict_keys d).
Proof.
  induction d as [| [k1 x1] d IH]; cbn; [tauto |].
  destruct (String.eqb k1 k); cbn; intuition.
Qed.

Lemma dict_set_NoDup {X : Type} (d : dict X) (k : string) (x : X) :
  List.NoDup (dict_keys d) -> List.NoDup (dict_keys (dict_set d k x)).
Proof.
  induction d as [| [k1 x1] d IH]; cbn; intro H.
  - apply List.NoDup_cons; [intros [] | apply List.NoDup_nil].
  - apply List.NoDup_cons_iff in H. destruct H as [Hnin Hnd].
    destruct (String.eqb_spec k1 k) as [-> | Hne]; cbn.
    + apply List.NoDup_cons; assumption.
    + apply List.NoDup_cons; [| now apply IH].
      change (List.map fst (dict_set d k x)) with (dict_keys (dict_set d k x)).
      rewrite dict_set_keys_In. intros [E | Hin]; [congruence | contradiction].
Qed.

Lemma dict_pop_NoDup {X : Type} (d : dict X) (k : string) :
  List.NoDup (dict_keys d) -> List.NoDup (dict_keys (dict_pop d k)).
Proof.
  induction d as [| [k1 x1] d IH]; cbn; intro H; [apply List.NoDup_nil |].
  apply List.NoDup_cons_iff in H. destruct H as [Hnin Hnd].
  destruct (String.eqb k1 k); cbn; [exact Hnd |].
  apply List.NoDup_cons; [| now apply IH].
  intro Hin. apply Hnin.
  now apply (dict_pop_keys_In d k k1).
Qed.

(** Once popped, a key of a well-formed dictionary is gone. *)
Lemma dict_get_pop_eq {X : Type} (d : dict X) (k : string) :
  List.NoDup (dict_keys d) -> dict_get (dict_pop d k) k = None.
Proof.
  induction d as [| [k1 x1] d IH]; cbn; intro H; [reflexivity |].
  apply List.NoDup_cons_iff in H. destruct H as [Hnin Hnd].
  destruct (String.eqb_spec k1 k) as [-> | Hne].
  - now apply dict_get_None_keys.
  - cbn. destruct (String.eqb_spec k1 k); [contradiction | now apply IH].
Qed.

Lemma dict_get_set_ne {X : Type} (d : dict X) (k k' : string) (x : X) :
  k <> k' -> dict_get (dict_set d k x) k' = dict_get d k'.
Proof.
  intro Hne. induction d as [| [k1 x1] d IH]; cbn.
  - destruct (String.eqb_spec k k'); [contradiction | reflexivity].
  - destruct (String.eqb_spec k1 k) as [-> | Hne1]; cbn.
    + destruct (String.eqb_spec k k'); [contradiction | reflexivity].
    + destruct (String.eqb k1 k'); [reflexivity | exact IH].
Qed.

Lemma dict_set_length {X : Type} (d : dict X) (k : string) (x : X) :
  (List.length (dict_set d k x) <= S (List.length d))%nat.
Proof.
  induction d as [| [k1 x1] d IH]; cbn; [lia |].
  destruct (String.eqb k1 k); cbn; lia.
Qed.

Lemma dict_pop_length {X : Type} (d : dict X) (k : string) :
  In k (dict_keys d) -> S (List.length (dict_pop d k)) = List.length d.
Proof.
  induction d as [| [k1 x1] d IH]; cbn; [tauto |].
  destruct (String.eqb_spec k1 k) as [-> | Hne]; cbn; [reflexivity |].
  intros [E | Hin]; [congruence | now rewrite IH].
Qed.

End DictFacts.

Lemma min_item_In (best : string * Q) (items : list (string * Q)) :
  In (AsyncCache.min_item best items) (best :: items).
Proof.
  revert best. induction items as [| it rest IH]; intro best; cbn -[In].
  - now left.
  - destruct (Py.ltb (snd it) (snd best)).
    + right. apply IH.
    + destruct (IH best) as [E | Hin]; [now left | right; now right].
Qed.

Lemma oldest_key_In (ttls : AsyncCache.dict Q) (k : string) :
  AsyncCache.oldest_key ttls = Some k -> In k (dict_keys ttls).
Proof.
  destruct ttls as [| first rest]; cbn -[In]; [discriminate |].
  intro H. injection H as <-.
  change (first.1 :: List.map fst rest) with (List.map fst (first :: rest)).
  apply List.in_map. apply min_item_In.
Qed.

Section CacheInvariant.

Import AsyncCache AsyncCacheReads.

Context {V : Type}.

Lemma set_local_inv (c : t V) (key : string) (value : V) (ttl : Z) (now : Q) :
  cache_inv c -> cache_inv (set_local c key value ttl now).
Proof.
  intros ((Hnd & Hkeys) & Hlen & Hh & Hm).
  unfold set_local.
  set (cache1 := dict_set (local_cache c) key value).
  set (ttl1 := dict_set (local_ttl c) key (now + inject_Z ttl)).
  assert (Hk1 : dict_keys cache1 = dict_keys ttl1)
    by (apply dict_set_keys; exact Hkeys).
  assert (Hnd1 : List.NoDup (dict_keys cache1))
    by (apply dict_set_NoDup; exact Hnd).
  pose proof (dict_set_length (local_cache c) key value) as Hl1.
  fold cache1 in Hl1.
  destruct (Nat.ltb_spec (_local_max_size V c) (List.length cache1))
    as [Hover | Hfit].
  - destruct (oldest_key ttl1) as [oldest |] eqn:Eo; cbn.
    + apply oldest_key_In in Eo. rewrite <- Hk1 in Eo.
      pose proof (dict_pop_length cache1 oldest Eo) as Hpop.
      repeat split; cbn; try assumption.
      * now apply dict_pop_NoDup.
      * now apply dict_pop_keys.
      * lia.
    + destruct ttl1 as [| first rest] eqn:Et; [| discriminate Eo].
      destruct cache1 as [| c1 rest1]; [cbn in Hover; lia | discriminate Hk1].
  - cbn. repeat split; cbn; assumption.
Qed.

Lemma set_inv (c : t V) (key : string) (value : V) (ttl : option Z)
    (now : Q) (remote : setex_result) :
  cache_inv c -> cache_inv (snd (set c key value ttl now remote)).
Proof.
  intro H. unfold set.
  destruct (redis c), remote; cbn [snd];
    try exact H; now apply set_local_inv.
Qed.

Lemma get_local_inv (c : t V) (key : string) (now : Q) :
  cache_inv c -> cache_inv (snd (get_local c key now)).
Proof.
  intros ((Hnd & Hkeys) & Hlen & Hh & Hm).
  unfold get_local.
  destruct (dict_get (local_cache c) key) as [value |] eqn:Ec.
  - destruct (dict_get (local_ttl c) key) as [expiry |] eqn:Et.
    + destruct (Py.ltb now expiry); cbn.
      * repeat split; cbn; try assumption; lia.
      * assert (Hin : In key (dict_keys (local_cache c))).
        { destruct (List.in_dec string_dec key (dict_keys (local_cache c)))
            as [Hin | Hnin]; [exact Hin |].
          apply dict_get_None_keys in Hnin. congruence. }
        pose proof (dict_pop_length (local_cache c) key Hin).
        repeat split; cbn; try assumption; try lia.
        -- now apply dict_pop_NoDup.
        -- now apply dict_pop_keys.
    + exfalso. apply (dict_get_same_keys _ _ key Hkeys) in Et. congruence.
  - cbn. repeat split; cbn; try assumption; lia.
Qed.

Lemma get_inv (c : t V) (key : string) (now : Q)
    (remote : redis_get_result V) :
  cache_inv c -> cache_inv (snd (get c key now remote)).
Proof.
  intro H. unfold get.
  assert (H1 : cache_inv (with_counters V c (_hits V c + 1) (_misses V c))).
  { destruct H as (Hwf & Hlen & Hh & Hm).
    repeat split; cbn; try apply Hwf; try assumption; lia. }
  destruct (redis c); [| now apply get_local_inv].
  destruct remote; cbn [snd];
    try exact H1; now apply get_local_inv.
Qed.

Lemma delete_inv (c : t V) (key : string) :
  cache_inv c -> cache_inv (delete c key).
Proof.
  intros ((Hnd & Hkeys) & Hlen & Hh & Hm). unfold delete.
  repeat split; cbn; try assumption.
  - now apply dict_pop_NoDup.
  - now apply dict_pop_keys.
  - destruct (List.in_dec string_dec key (dict_keys (local_cache c)))
      as [Hin | Hnin].
    + pose proof (dict_pop_length (local_cache c) key Hin). lia.
    + assert (E : dict_pop (local_cache c) key = local_cache c).
      { clear -Hnin. induction (local_cache c) as [| [k1 x1] d IH]; cbn in *;
          [reflexivity |].
        destruct (String.eqb_spec k1 key) as [-> | Hne]; [tauto |].
        f_equal. apply IH. tauto. }
      rewrite E. exact Hlen.
Qed.

Lemma reachable_inv (c : t V) : cache_reachable c -> cache_inv c.
Proof.
  induction 1.
  - repeat split; cbn; try lia. apply List.NoDup_nil.
  - now apply set_inv.
  - now apply get_inv.
  - now apply delete_inv.
Qed.

End CacheInvariant.






(** X3. The hit rate of a reachable cache state lies between 0 and 1. *)
Theorem cache_hit_rate_bounds (V : Type) (c : AsyncCache.t V) :
  cache_reachable c -> 0 <= AsyncCacheReads.hit_rate c <= 1.
Proof.
  intro Hr. destruct (reachable_inv c Hr) as (_ & _ & Hh & Hm).
  unfold AsyncCacheReads.hit_rate.
  destruct (Z.ltb_spec 0 (AsyncCache._hits V c + AsyncCache._misses V c))
    as [Hpos | Hzero]; [| lra].
  assert (Ht : 0 < inject_Z (AsyncCache._hits V c + AsyncCache._misses V c))
    by (change 0 with (inject_Z 0); now rewrite <- Zlt_Qlt).
  assert (H0 : 0 <= inject_Z (AsyncCache._hits V c))
    by (change 0 with (inject_Z 0); now rewrite <- Zle_Qle).
  assert (H1 : inject_Z (AsyncCache._hits V c)
               <= inject_Z (AsyncCache._hits V c + AsyncCache._misses V c))
    by (rewrite <- Zle_Qle; lia).
  split.
  - apply Qle_shift_div_l; [exact Ht | lra].
  - apply Qle_shift_div_r; [exact Ht | lra].
Qed.

Lemma cache_hit_rate_bounds_witness :
  0 <= AsyncCacheReads.hit_rate
         (snd (AsyncCacheReads.get (AsyncCache.init Z false 60) "k" 0
                 AsyncCacheReads.redis_miss)) <= 1.
Proof.
  apply (cache_hit_rate_bounds Z). apply reach_get, reach_init.
Defined.





(** X6. In a reachable cache state, after [delete] the local part of
    [get] finds nothing under the key, while every other key keeps its
    value and its expiry. *)
Theorem cache_delete_then_get (V : Type) (c : AsyncCache.t V)
    (key : string) (now : Q) :
  cache_reachable c ->
  let c' := AsyncCacheReads.delete c key in
  fst (AsyncCacheReads.get_local c' key now) = AsyncCacheReads.get_returns None
  /\ (forall other, other <> key ->
        AsyncCache.dict_get (AsyncCache.local_cache c') other
        = AsyncCache.dict_get (AsyncCache.local_cache c) other /\
        AsyncCache.dict_get (AsyncCache.local_ttl c') other
        = AsyncCache.dict_get (AsyncCache.local_ttl c) other).
Proof.
  intro Hr. cbv zeta. destruct (reachable_inv c Hr) as ((Hnd & Hkeys) & _).
  split.
  - unfold AsyncCacheReads.get_local, AsyncCacheReads.delete.
    cbn [AsyncCache.local_cache AsyncCacheReads.with_local].
    now rewrite dict_get_pop_eq.
  - intros other Hne. unfold AsyncCacheReads.delete. cbn.
    split; apply dict_get_pop_ne; congruence.
Qed.

Lemma cache_delete_then_get_witness :
  fst (AsyncCacheReads.get_local
         (AsyncCacheReads.delete
            (snd (AsyncCache.set (AsyncCache.init Z false 60) "k" 7%Z None 0
                    AsyncCache.setex_raises)) "k")
         "k" 1)
  = AsyncCacheReads.get_returns None.
Proof.
  apply (cache_delete_then_get Z). apply reach_set, reach_init.
Defined.

(** ** CircuitBreaker: states between calls *)




(** X8. An open breaker stays as it is through any number of calls that
    all enter no later than [recovery_timeout] after the recorded failure
    time: each is rejected and none changes the breaker. *)
Theorem open_breaker_rejects_until_timeout (A : Type)
    (cb : CircuitBreaker.t) (last : Q)
    (calls : list (Q * CircuitBreaker.operation A)) :
  CircuitBreaker.state cb = CircuitBreaker.st_open ->
  CircuitBreaker.last_failure_time cb = Some last ->
  all_enter_by (last + inject_Z (CircuitBreaker.recovery_timeout cb)) calls ->
  CircuitBreaker.run cb calls = cb /\
  Forall (fun c => CircuitBreaker.call cb (fst c) (snd c)
                   = (CircuitBreaker.CircuitBreakerOpen, cb)) calls.
Proof.
  intros Hs Hl Hall. unfold all_enter_by in Hall.
  assert (Hrej : forall now (op : CircuitBreaker.operation A),
            now <= last + inject_Z (CircuitBreaker.recovery_timeout cb) ->
            CircuitBreaker.call cb now op
            = (CircuitBreaker.CircuitBreakerOpen, cb)).
  { intros now op Hle. unfold CircuitBreaker.call, CircuitBreaker.enter.
    rewrite Hs, Hl. cbn [CircuitBreaker.state_eqb].
    assert (E : Py.ltb (inject_Z (CircuitBreaker.recovery_timeout cb))
                  (now - last) = false) by (apply ltb_ge; lra).
    rewrite E, andb_false_r. reflexivity. }
  induction calls as [| [now op] calls IH].
  - split; [reflexivity | constructor].
  - apply List.Forall_cons_iff in Hall. destruct Hall as [Hnow Hrest].
    cbn [fst] in Hnow. destruct (IH Hrest) as [Hrun Hfa].
    split.
    + cbn [CircuitBreaker.run]. rewrite (Hrej now op Hnow). exact Hrun.
    + constructor; [apply (Hrej now op Hnow) | exact Hfa].
Qed.

Lemma open_breaker_rejects_until_timeout_witness :
  let cb := CircuitBreaker.run (CircuitBreaker.init 1 30)
              [(1, @CircuitBreaker.raises unit 2)] in
  CircuitBreaker.run cb
    [(10, CircuitBreaker.returns tt); (32, CircuitBreaker.raises 33)]
  = cb.
Proof.
  cbv zeta.
  apply (open_breaker_rejects_until_timeout unit
           (CircuitBreaker.run (CircuitBreaker.init 1 30)
              [(1, @CircuitBreaker.raises unit 2)]) 2).
  - reflexivity.
  - reflexivity.
  - repeat constructor; vm_compute; discriminate.
Defined.

(** ** RiskManager: further properties of the risk check *)

(** X9. [check_trade_risk] never returns a negative count: the result is
    0 or at least one contract. *)
Theorem check_trade_risk_zero_or_positive (o : MarketOpportunity.t)
    (pf : gmap string Q) (now : Q) (rm : RiskManager.t) :
  let n := fst (RiskManager.check_trade_risk o pf now rm) in
  n = 0%Z \/ (1 <= n)%Z.
Proof.
  cbv zeta. crt_unfold.
  repeat crt_step; cbn [fst]; auto; right;
    match goal with
    | H : (_ <? 1)%Z = false |- _ => apply Z.ltb_ge in H; exact H
    end.
Qed.

(** X10. An approved trade keeps its correlation group inside the
    concentration cap: the exposure already open in the group plus the
    cost of the approved contracts is at most
    [balance * max_concentration]. *)
Theorem approved_trade_within_concentration (o : MarketOpportunity.t)
    (pf : gmap string Q) (now : Q) (rm : RiskManager.t) :
  let n := fst (RiskManager.check_trade_risk o pf now rm) in
  let exposure :=
    fst (RiskManager._get_correlation_exposure
           (MarketOpportunity.correlation_group o) rm) in
  (0 < n)%Z ->
  exposure + inject_Z n * MarketOpportunity.entry_price o / 100
  <= RiskManager.balance_of pf
     * RiskConfig.max_concentration (RiskManager.config rm).
Proof.
  cbv zeta. crt_unfold. cbn [fst].
  repeat crt_step; cbn [fst snd]; try lia; intro Hn.
  all: match goal with
       | H : (Py.leb _ 0 || _)%bool = false |- _ =>
           apply orb_false_elim in H; destruct H as [He0 He100];
           apply leb_gt in He0
       end.
  all: try (match goal with
            | H : Py.ltb _ _ = false |- _ => apply ltb_ge in H; exact H
            end).
  all: match goal with
       | |- ?cur + inject_Z (Py.int ((?mx - ?cur) * 100 / ?e)) * ?e / 100 <= ?mx =>
           assert (Hc : inject_Z (Py.int ((mx - cur) * 100 / e)) * e / 100
                        <= mx - cur)
             by (apply cost_le; [exact He0 | apply int_pos_le; lia]);
           lra
       end.
Qed.

Lemma approved_trade_within_concentration_witness :
  let o := sample "yes" 5 0.8 0.6 50 0 in
  let rm := RiskManager.init RiskConfig.default in
  fst (RiskManager._get_correlation_exposure "general" rm)
  + inject_Z (fst (RiskManager.check_trade_risk o (portfolio_of 100) 0 rm))
    * 50 / 100
  <= 100 * 0.30.
Proof.
  cbv zeta.
  apply (approved_trade_within_concentration (sample "yes" 5 0.8 0.6 50 0)
           (portfolio_of 100) 0 (RiskManager.init RiskConfig.default)).
  vm_compute. reflexivity.
Defined.

(** A tripped breaker rejects every opportunity. *)
Lemma breaker_set_rejected (o : MarketOpportunity.t) (pf : gmap string Q)
    (now : Q) (rm : RiskManager.t) :
  RiskManager.daily_loss (RiskManager.circuit_breakers rm) = true
  \/ RiskManager.drawdown (RiskManager.circuit_breakers rm) = true
  \/ RiskManager.trade_frequency (RiskManager.circuit_breakers rm) = true ->
  fst (RiskManager.check_trade_risk o pf now rm) = 0%Z.
Proof.
  intro H. crt_unfold. crt_step; [reflexivity |].
  destruct H as [-> | [H | H]]; [reflexivity | |].
  - destruct (RiskManager.daily_loss _); [reflexivity |]. rewrite H. reflexivity.
  - destruct (RiskManager.daily_loss _); [reflexivity |].
    destruct (RiskManager.drawdown _); [reflexivity |]. rewrite H. reflexivity.
Qed.



(** ** RiskManager: bookkeeping *)

(** The state [update_portfolio_state] leaves behind. *)
Lemma update_portfolio_state_fields (pf : gmap string Q) (now : Q)
    (rm : RiskManager.t) :
  let rm' := snd (RiskManagerBook.update_portfolio_state pf now rm) in
  let equity := total_equity pf in
  RiskManager.config rm' = RiskManager.config rm /\
  RiskManager.daily_pnl rm' = RiskManager.daily_pnl rm /\
  RiskManager.hourly_trades rm' = RiskManager.hourly_trades rm /\
  RiskManager.daily_trades rm' = RiskManager.daily_trades rm /\
  RiskManager.peak_balance rm'
  = (if Py.ltb (RiskManager.peak_balance rm) equity
     then equity else RiskManager.peak_balance rm) /\
  (0 < RiskManager.peak_balance rm' ->
   RiskManager.current_drawdown rm'
   = (RiskManager.peak_balance rm' - equity) / RiskManager.peak_balance rm' /\
   RiskManager.current_drawdown rm' <= RiskManager.intraday_drawdown rm') /\
  breakers_match now rm'.
Proof.
  cbv zeta.
  unfold RiskManagerBook.update_portfolio_state,
    RiskManagerBook._update_circuit_breakers, RiskManager.bind,
    RiskManager.read, RiskManager.write, RiskManager.ret, total_equity,
    breakers_match.
  cbv beta iota.
  destruct (Py.ltb (RiskManager.peak_balance rm) _) eqn:E1; cbv beta iota;
    match goal with
    | |- context [Py.ltb 0 ?p] => destruct (Py.ltb 0 p) eqn:E2
    end; cbn; repeat split; auto;
    try apply max_ge_r;
    exfalso; apply ltb_ge in E2; lra.
Qed.

(** X12. [update_portfolio_state] never lowers the peak balance, leaves
    it at least as large as the reported equity, and with a positive peak
    and a non-negative equity the current drawdown lies between 0 and 1
    and the intraday drawdown is at least as large. *)
Theorem update_portfolio_state_peak (pf : gmap string Q) (now : Q)
    (rm : RiskManager.t) :
  let rm' := snd (RiskManagerBook.update_portfolio_state pf now rm) in
  RiskManager.peak_balance rm <= RiskManager.peak_balance rm' /\
  total_equity pf <= RiskManager.peak_balance rm' /\
  (0 < RiskManager.peak_balance rm' -> 0 <= total_equity pf ->
   0 <= RiskManager.current_drawdown rm' <= 1 /\
   RiskManager.current_drawdown rm' <= RiskManager.intraday_drawdown rm').
Proof.
  cbv zeta.
  destruct (update_portfolio_state_fields pf now rm)
    as (_ & _ & _ & _ & Hpeak & Hdd & _).
  set (rm' := snd (RiskManagerBook.update_portfolio_state pf now rm)) in *.
  assert (H1 : RiskManager.peak_balance rm <= RiskManager.peak_balance rm'
               /\ total_equity pf <= RiskManager.peak_balance rm').
  { rewrite Hpeak.
    destruct (Py.ltb (RiskManager.peak_balance rm) (total_equity pf)) eqn:E;
      [apply ltb_lt in E | apply ltb_ge in E]; split; lra. }
  destruct H1 as [Hmono Hge]. repeat split; try assumption.
  - destruct (Hdd H) as [-> _]. apply Qle_shift_div_l; [exact H | lra].
  - destruct (Hdd H) as [-> _]. apply Qle_shift_div_r; [exact H | lra].
  - now destruct (Hdd H).
Qed.

Lemma update_portfolio_state_peak_witness :
  let rm' := snd (RiskManagerBook.update_portfolio_state
                    {[ "balance"%string := 80; "active_value"%string := 10 ]} 0
                    (snd (RiskManagerBook.update_portfolio_state
                            (portfolio_of 100) 0
                            (RiskManager.init RiskConfig.default)))) in
  0 <= RiskManager.current_drawdown rm' <= 1 /\
  RiskManager.current_drawdown rm' <= RiskManager.intraday_drawdown rm'.
Proof.
  cbv zeta.
  apply (update_portfolio_state_peak
           {[ "balance"%string := 80; "active_value"%string := 10 ]} 0).
  - vm_compute. reflexivity.
  - vm_compute. discriminate.
Defined.

(** X13. A fall of the equity by more than [max_drawdown_limit] of the
    peak halts trading: after [update_portfolio_state] has seen it, the
    risk check returns 0 for every opportunity, portfolio and time. *)
Theorem drawdown_halts_trading (pf : gmap string Q) (now : Q)
    (rm : RiskManager.t) (o : MarketOpportunity.t) (pf' : gmap string Q)
    (later : Q) :
  0 < RiskManager.peak_balance rm ->
  total_equity pf <= RiskManager.peak_balance rm ->
  RiskConfig.max_drawdown_limit (RiskManager.config rm)
  * RiskManager.peak_balance rm
  < RiskManager.peak_balance rm - total_equity pf ->
  fst (RiskManager.check_trade_risk o pf' later
         (snd (RiskManagerBook.update_portfolio_state pf now rm))) = 0%Z.
Proof.
  intros Hpos Hle Hfall.
  destruct (update_portfolio_state_fields pf now rm)
    as (Hcfg & _ & _ & _ & Hpeak & Hdd & (_ & Hb & _)).
  set (rm' := snd (RiskManagerBook.update_portfolio_state pf now rm)) in *.
  assert (Hp' : RiskManager.peak_balance rm' = RiskManager.peak_balance rm).
  { rewrite Hpeak.
    destruct (Py.ltb (RiskManager.peak_balance rm) (total_equity pf)) eqn:E;
      [apply ltb_lt in E; lra | reflexivity]. }
  apply breaker_set_rejected. right. left. rewrite Hb.
  apply orb_true_iff. left. apply ltb_lt.
  rewrite Hp' in Hdd. destruct (Hdd Hpos) as [-> _]. rewrite Hcfg.
  apply Qlt_shift_div_l; [exact Hpos | exact Hfall].
Qed.

Lemma drawdown_halts_trading_witness :
  fst (RiskManager.check_trade_risk (sample "yes" 5 0.8 0.6 50 0)
         (portfolio_of 70) 1
         (snd (RiskManagerBook.update_portfolio_state (portfolio_of 70) 1
                 (snd (RiskManagerBook.update_portfolio_state
                         (portfolio_of 100) 0
                         (RiskManager.init RiskConfig.default)))))) = 0%Z.
Proof.
  apply (drawdown_halts_trading (portfolio_of 70) 1).
  - vm_compute. reflexivity.
  - vm_compute. discriminate.
  - vm_compute. reflexivity.
Defined.

(** The state [record_trade] leaves behind, whether or not the risk
    level could be assessed. *)
Lemma record_trade_fields (o : MarketOpportunity.t) (n : Z)
    (pf : gmap string Q) (now stamp : Q) (rm : RiskManager.t) :
  let rm' := snd (RiskManagerBook.record_trade o n pf now stamp rm) in
  RiskManager.config rm' = RiskManager.config rm /\
  RiskManager.circuit_breakers rm' = RiskManager.circuit_breakers rm /\
  RiskManager.daily_pnl rm' = RiskManager.daily_pnl rm /\
  RiskManager.ticker_last_trade rm'
  = <[MarketOpportunity.ticker o := now]> (RiskManager.ticker_last_trade rm) /\
  RiskManager.hourly_trades rm'
  = RiskManagerBook.deque_append RiskManagerBook.hourly_trades_maxlen
      (RiskManager.hourly_trades rm) now /\
  RiskManager.daily_trades rm'
  = RiskManagerBook.deque_append RiskManagerBook.daily_trades_maxlen
      (RiskManager.daily_trades rm) now /\
  (RiskManager.trade_history rm' = RiskManager.trade_history rm
   \/ exists trade,
        RiskManager.trade_history rm'
        = RiskManagerBook.deque_append RiskManagerBook.trade_history_maxlen
            (RiskManager.trade_history rm) trade).
Proof.
  cbv zeta. unfold RiskManagerBook.record_trade, RiskManager.bind,
    RiskManager.read, RiskManager.write, RiskManager.ret.
  cbv beta iota zeta.
  destruct (RiskManagerBook._assess_risk_level o pf); cbn [snd];
    repeat split; try reflexivity; [right; eexists; reflexivity | now left].
Qed.

(** X14. Cooldown: after [record_trade] at clock reading [now], the risk
    check turns down every opportunity on the same ticker for as long as
    fewer than [cooldown_period_minutes] minutes have passed. *)
Theorem cooldown_after_record_trade (o : MarketOpportunity.t) (n : Z)
    (pf : gmap string Q) (now stamp : Q) (rm : RiskManager.t)
    (o' : MarketOpportunity.t) (pf' : gmap string Q) (later : Q) :
  MarketOpportunity.ticker o' = MarketOpportunity.ticker o ->
  (later - now) / 60
  < inject_Z (RiskConfig.cooldown_period_minutes (RiskManager.config rm)) ->
  fst (RiskManager.check_trade_risk o' pf' later
         (snd (RiskManagerBook.record_trade o n pf now stamp rm))) = 0%Z.
Proof.
  intros Htk Hcool.
  destruct (record_trade_fields o n pf now stamp rm)
    as (Hcfg & _ & _ & Hlast & _).
  set (rm' := snd (RiskManagerBook.record_trade o n pf now stamp rm)) in *.
  crt_unfold. do 8 (crt_step; [reflexivity |]). exfalso.
  match goal with
  | H : match _ !! _ with Some _ => _ | None => _ end = false |- _ =>
      rewrite Hlast, Htk, lookup_insert_eq, Hcfg in H;
      apply ltb_ge in H; lra
  end.
Qed.

Lemma cooldown_after_record_trade_witness :
  fst (RiskManager.check_trade_risk (sample "yes" 5 0.8 0.6 50 0)
         (portfolio_of 100) 299
         (snd (RiskManagerBook.record_trade (sample "no" 5 0.8 0.6 50 0) 20
                 (portfolio_of 100) 0 0
                 (RiskManager.init RiskConfig.default)))) = 0%Z.
Proof.
  apply (cooldown_after_record_trade (sample "no" 5 0.8 0.6 50 0) 20
           (portfolio_of 100) 0 0 (RiskManager.init RiskConfig.default)).
  - reflexivity.
  - vm_compute. reflexivity.
Defined.

Lemma deque_append_length {X : Type} (maxlen : nat) (d : list X) (x : X) :
  (List.length d <= maxlen)%nat ->
  (List.length (RiskManagerBook.deque_append maxlen d x) <= maxlen)%nat.
Proof.
  intro H. unfold RiskManagerBook.deque_append.
  destruct (Nat.ltb_spec maxlen (List.length (d ++ [x]))) as [Hover | Hfit];
    [| exact Hfit].
  rewrite List.length_app in Hover. cbn in Hover.
  destruct d as [| y d]; cbn in *; [lia |].
  rewrite List.length_app. cbn. lia.
Qed.

Lemma close_latest_length (ticker : string) (pnl : Q) (exit_price : option Q)
    (l : list TradeRecord.t) :
  List.length (RiskManager.close_latest ticker pnl exit_price l)
  = List.length l.
Proof.
  induction l as [| trade l IH]; cbn; [reflexivity |].
  destruct (_ && _)%bool; cbn; [reflexivity | now rewrite IH].
Qed.

(** X15. The bounded buffers stay bounded: when the trade history, the
    hourly and the daily trade times are within 1000, 100 and 200 entries,
    they still are after [record_trade], after [record_trade_result] and
    after [update_portfolio_state]. *)
Theorem buffers_stay_bounded (rm : RiskManager.t) :
  buffers_bounded rm ->
  (forall o n pf now stamp,
     buffers_bounded (snd (RiskManagerBook.record_trade o n pf now stamp rm)))
  /\
  (forall ticker pnl exit_price,
     buffers_bounded
       (snd (RiskManager.record_trade_result ticker pnl exit_price rm)))
  /\
  (forall pf now,
     buffers_bounded (snd (RiskManagerBook.update_portfolio_state pf now rm))).
Proof.
  intros (Hh & Hho & Hd). split; [| split].
  - intros o n pf now stamp.
    destruct (record_trade_fields o n pf now stamp rm)
      as (_ & _ & _ & _ & Hhour & Hday & Hhist).
    unfold buffers_bounded. rewrite Hhour, Hday.
    repeat split; try now apply deque_append_length.
    destruct Hhist as [-> | (trade & ->)];
      [exact Hh | now apply deque_append_length].
  - intros ticker pnl exit_price. unfold buffers_bounded. cbn.
    rewrite List.length_rev, close_latest_length, List.length_rev. auto.
  - intros pf now.
    destruct (update_portfolio_state_fields pf now rm)
      as (_ & _ & Hhour & Hday & _).
    unfold buffers_bounded. rewrite Hhour, Hday.
    repeat split; try assumption.
    unfold RiskManagerBook.update_portfolio_state,
      RiskManagerBook._update_circuit_breakers, RiskManager.bind,
      RiskManager.read, RiskManager.write, RiskManager.ret.
    cbv beta iota.
    repeat (match goal with
            | |- context [if ?c then _ else _] => destruct c
            end; cbv beta iota); exact Hh.
Qed.

Lemma buffers_stay_bounded_witness :
  buffers_bounded
    (snd (RiskManagerBook.record_trade (sample "yes" 5 0.8 0.6 50 0) 20
            (portfolio_of 100) 0 0 (RiskManager.init RiskConfig.default))).
Proof.
  apply (buffers_stay_bounded (RiskManager.init RiskConfig.default)).
  unfold buffers_bounded. cbn. repeat split; lia.
Defined.

(** X16. [record_trade_result] removes the position of its ticker and no
    other, adds the P&L to the daily and to the weekly figure, and keeps
    the number of trade records. *)
Theorem record_trade_result_closes_position (ticker : string) (pnl : Q)
    (exit_price : option Q) (rm : RiskManager.t) :
  let rm' := snd (RiskManager.record_trade_result ticker pnl exit_price rm) in
  RiskManager.active_positions rm' !! ticker = None /\
  (forall other, other <> ticker ->
     RiskManager.active_positions rm' !! other
     = RiskManager.active_positions rm !! other) /\
  RiskManager.daily_pnl rm' = RiskManager.daily_pnl rm + pnl /\
  RiskManager.weekly_pnl rm' = RiskManager.weekly_pnl rm + pnl /\
  List.length (RiskManager.trade_history rm')
  = List.length (RiskManager.trade_history rm).
Proof.
  cbv zeta. cbn. repeat split.
  - apply lookup_delete_eq.
  - intros other Hne. apply lookup_delete_ne. congruence.
  - now rewrite List.length_rev, close_latest_length, List.length_rev.
Qed.

Lemma record_trade_result_closes_position_witness :
  RiskManager.active_positions
    (snd (RiskManager.record_trade_result "KXOLD" 1 (Some 55)
            manager_with_position)) !! "KXOLD"%string = None.
Proof.
  apply (record_trade_result_closes_position "KXOLD" 1 (Some 55)
           manager_with_position).
Defined.

(** X17. Realised losses halt trading: once [record_trade_result] has
    taken the daily P&L below [-max_daily_loss_usd], the next
    [update_portfolio_state] trips the breaker and the risk check returns
    0 for every opportunity. *)
Theorem daily_loss_halts_trading (ticker : string) (pnl : Q)
    (exit_price : option Q) (rm : RiskManager.t) (pf : gmap string Q)
    (now : Q) (o : MarketOpportunity.t) (pf' : gmap string Q) (later : Q) :
  RiskManager.daily_pnl rm + pnl
  < - RiskConfig.max_daily_loss_usd (RiskManager.config rm) ->
  let rm1 := snd (RiskManager.record_trade_result ticker pnl exit_price rm) in
  let rm2 := snd (RiskManagerBook.update_portfolio_state pf now rm1) in
  fst (RiskManager.check_trade_risk o pf' later rm2) = 0%Z.
Proof.
  intro Hloss. cbv zeta.
  set (rm1 := snd (RiskManager.record_trade_result ticker pnl exit_price rm)).
  destruct (update_portfolio_state_fields pf now rm1)
    as (Hcfg & Hpnl & _ & _ & _ & _ & (Hb & _)).
  apply breaker_set_rejected. left. rewrite Hb, Hcfg, Hpnl.
  apply orb_true_iff. left. apply ltb_lt. exact Hloss.
Qed.

Lemma daily_loss_halts_trading_witness :
  fst (RiskManager.check_trade_risk (sample "yes" 5 0.8 0.6 50 0)
         (portfolio_of 100) 1
         (snd (RiskManagerBook.update_portfolio_state (portfolio_of 100) 1
                 (snd (RiskManager.record_trade_result "KXOLD" (-31) None
                         manager_with_position))))) = 0%Z.
Proof.
  apply (daily_loss_halts_trading "KXOLD" (-31) None manager_with_position).
  vm_compute. reflexivity.
Defined.

Lemma recent_app (since : Q) (l1 l2 : list Q) :
  RiskManagerBook.recent since (l1 ++ l2)
  = (RiskManagerBook.recent since l1 + RiskManagerBook.recent since l2)%Z.
Proof.
  unfold RiskManagerBook.recent.
  rewrite List.filter_app, List.length_app. lia.
Qed.

(** X18. Trade frequency halts trading: when the hourly buffer is not
    full and already holds [max_trades_per_hour - 1] trades of the last
    hour, one more [record_trade] within that hour makes the next
    [update_portfolio_state] trip the breaker, and the risk check returns
    0 for every opportunity. *)
Theorem trade_frequency_halts_trading (o : MarketOpportunity.t) (n : Z)
    (pf : gmap string Q) (at_time stamp : Q) (rm : RiskManager.t)
    (pf1 : gmap string Q) (now : Q) (o' : MarketOpportunity.t)
    (pf' : gmap string Q) (later : Q) :
  (List.length (RiskManager.hourly_trades rm)
   < RiskManagerBook.hourly_trades_maxlen)%nat ->
  now - 3600 < at_time ->
  (RiskConfig.max_trades_per_hour (RiskManager.config rm) - 1
   <= RiskManagerBook.recent (now - 3600) (RiskManager.hourly_trades rm))%Z ->
  let rm1 := snd (RiskManagerBook.record_trade o n pf at_time stamp rm) in
  let rm2 := snd (RiskManagerBook.update_portfolio_state pf1 now rm1) in
  fst (RiskManager.check_trade_risk o' pf' later rm2) = 0%Z.
Proof.
  intros Hroom Hin Hcount. cbv zeta.
  destruct (record_trade_fields o n pf at_time stamp rm)
    as (Hcfg1 & _ & _ & _ & Hhour1 & _).
  set (rm1 := snd (RiskManagerBook.record_trade o n pf at_time stamp rm)) in *.
  destruct (update_portfolio_state_fields pf1 now rm1)
    as (Hcfg & _ & Hhour & _ & _ & _ & (_ & _ & Hb)).
  apply breaker_set_rejected. right. right.
  rewrite Hb, Hcfg, Hhour, Hcfg1, Hhour1.
  apply orb_true_iff. left. apply Z.leb_le.
  unfold RiskManagerBook.deque_append.
  destruct (Nat.ltb_spec RiskManagerBook.hourly_trades_maxlen
              (List.length (RiskManager.hourly_trades rm ++ [at_time])))
    as [Hover | _].
  - rewrite List.length_app in Hover. cbn in Hover. lia.
  - rewrite recent_app.
    assert (E : RiskManagerBook.recent (now - 3600) [at_time] = 1%Z).
    { unfold RiskManagerBook.recent. cbn [List.filter].
      apply ltb_lt in Hin. rewrite Hin. reflexivity. }
    rewrite E. lia.
Qed.

Lemma trade_frequency_halts_trading_witness :
  let cfg :=
    {| RiskConfig.max_position_size_usd := 100;
       RiskConfig.max_portfolio_allocation := 0.25;
       RiskConfig.max_single_trade_allocation := 0.10;
       RiskConfig.max_daily_loss_usd := 30;
       RiskConfig.max_daily_loss_pct := 0.10;
       RiskConfig.max_weekly_loss_usd := 100;
       RiskConfig.max_drawdown_limit := 0.20;
       RiskConfig.max_intraday_drawdown := 0.15;
       RiskConfig.kelly_multiplier := 0.5;
       RiskConfig.min_kelly_fraction := 0.01;
       RiskConfig.max_kelly_fraction := 0.50;
       RiskConfig.volatility_adjustment := true;
       RiskConfig.max_volatility_threshold := 0.40;
       RiskConfig.max_concentration := 0.30;
       RiskConfig.max_correlation_threshold := 0.70;
       RiskConfig.min_edge := 0.5;
       RiskConfig.min_confidence := 0.3;
       RiskConfig.min_liquidity_score := 0.1;
       RiskConfig.max_trades_per_hour := 1;
       RiskConfig.max_trades_per_day := 50;
       RiskConfig.cooldown_period_minutes := 5;
       RiskConfig.trading_halt_on_volatility := true;
       RiskConfig.volatility_spike_threshold := 2 |} in
  fst (RiskManager.check_trade_risk (sample "yes" 5 0.8 0.6 50 0)
         (portfolio_of 100) 2000
         (snd (RiskManagerBook.update_portfolio_state (portfolio_of 100) 1000
                 (snd (RiskManagerBook.record_trade
                         (sample "no" 5 0.8 0.6 50 0) 20 (portfolio_of 100)
                         900 900 (RiskManager.init cfg)))))) = 0%Z.
Proof.
  cbv zeta.
  apply (trade_frequency_halts_trading (sample "no" 5 0.8 0.6 50 0) 20
           (portfolio_of 100) 900 900).
  - cbn. unfold RiskManagerBook.hourly_trades_maxlen. lia.
  - vm_compute. reflexivity.
  - vm_compute. discriminate.
Defined.

(** X19. [_assess_risk_level] raises exactly on a zero balance; otherwise
    an edge below 1 is always critical, and the level is low exactly when
    the allocation is at most 5% of the balance and the edge at least 2. *)
Theorem assess_risk_level_bands (o : MarketOpportunity.t)
    (pf : gmap string Q) :
  let balance := RiskManagerBook.portfolio_get pf "balance" 1 in
  let allocation :=
    inject_Z (MarketOpportunity.suggested_size o)
    * MarketOpportunity.entry_price o / 100 / balance in
  let level := RiskManagerBook._assess_risk_level o pf in
  (level = Py.Raise Py.ZeroDivisionError <-> balance == 0) /\
  (~ balance == 0 -> MarketOpportunity.edge o < 1 ->
   level = Py.Return CRITICAL) /\
  (level = Py.Return LOW <->
   ~ balance == 0 /\ allocation <= 0.05 /\ 2 <= MarketOpportunity.edge o).
Proof.
  cbv zeta. unfold RiskManagerBook._assess_risk_level. cbv zeta.
  set (balance := RiskManagerBook.portfolio_get pf "balance" 1).
  set (alloc := inject_Z (MarketOpportunity.suggested_size o)
                * MarketOpportunity.entry_price o / 100 / balance).
  set (edge := MarketOpportunity.edge o).
  destruct (Qeq_bool balance 0) eqn:Eb.
  - apply Qeq_bool_iff in Eb. split; [tauto |]. split; [tauto |].
    split; [discriminate | tauto].
  - assert (Hnz : ~ balance == 0)
      by (intro H; apply Qeq_bool_iff in H; congruence).
    destruct (Py.ltb 0.20 alloc) eqn:E1; destruct (Py.ltb edge 1) eqn:E2;
      destruct (Py.ltb 0.10 alloc) eqn:E3; destruct (Py.ltb edge 2) eqn:E4;
      destruct (Py.ltb 0.05 alloc) eqn:E5; cbn [orb];
      repeat match goal with
             | H : Py.ltb _ _ = true |- _ => apply ltb_lt in H
             | H : Py.ltb _ _ = false |- _ => apply ltb_ge in H
             end;
      (split; [split; [discriminate | tauto] |]);
      (split; [intros _ Hlt; try reflexivity; exfalso; lra |]);
      (split; [intro H; try discriminate H; repeat split; try assumption; lra
              | intros (_ & Ha & He); try reflexivity; exfalso; lra]).
Qed.

Lemma assess_risk_level_bands_witness :
  RiskManagerBook._assess_risk_level (sample "yes" 0.5 0.8 0.6 50 1)
    (portfolio_of 100) = Py.Return CRITICAL.
Proof.
  apply (assess_risk_level_bands (sample "yes" 0.5 0.8 0.6 50 1)
           (portfolio_of 100)).
  - vm_compute. discriminate.
  - vm_compute. reflexivity.
Defined.

(** ** models.py: further properties *)

(** X20. Building an opportunity from the fields of an opportunity that
    was already built changes nothing: [__post_init__] is idempotent. *)
Theorem post_init_idempotent (raw : MarketOpportunity.t) :
  MarketOpportunity.post_init (MarketOpportunity.post_init raw)
  = MarketOpportunity.post_init raw.
Proof.
  assert (Hclamp : forall hi x,
            Py.ltb 0 hi = true ->
            Py.max 0 (Py.min hi (Py.max 0 (Py.min hi x)))
            = Py.max 0 (Py.min hi x)).
  { intros hi x Hhi. unfold Py.max, Py.min.
    destruct (Py.ltb x hi) eqn:E1.
    - destruct (Py.ltb 0 x) eqn:E2.
      + now rewrite E1, E2.
      + assert (E3 : Py.ltb 0 hi = true) by exact Hhi.
        rewrite E3. reflexivity.
    - rewrite Hhi.
      assert (E3 : Py.ltb hi hi = false) by (apply ltb_ge; lra).
      now rewrite E3, Hhi. }
  assert (Hmax : forall x, Py.max 0 (Py.max 0 x) = Py.max 0 x).
  { intro x. unfold Py.max. destruct (Py.ltb 0 x) eqn:E; [now rewrite E |].
    reflexivity. }
  assert (Hlow : forall s, Py.lower (Py.lower s) = Py.lower s).
  { induction s as [| c s IH]; cbn; [reflexivity |]. rewrite IH. f_equal.
    unfold Py.lower_ascii.
    destruct (((65 <=? nat_of_ascii c)%nat && (nat_of_ascii c <=? 90)%nat)%bool)
      eqn:E; [| now rewrite E].
    apply andb_true_iff in E. destruct E as [E1 E2].
    apply Nat.leb_le in E1, E2.
    rewrite nat_ascii_embedding by lia.
    destruct (Nat.leb_spec (nat_of_ascii c + 32) 90); [lia |].
    rewrite andb_false_r. reflexivity. }
  unfold MarketOpportunity.post_init.
  cbn [MarketOpportunity.ticker MarketOpportunity.market_title
       MarketOpportunity.edge MarketOpportunity.confidence
       MarketOpportunity.side MarketOpportunity.entry_price
       MarketOpportunity.suggested_size MarketOpportunity.reasoning
       MarketOpportunity.liquidity_score MarketOpportunity.probability
       MarketOpportunity.timestamp MarketOpportunity.correlation_group].
  rewrite !Hclamp by reflexivity. rewrite Hmax.
  rewrite Z.max_r by lia. f_equal.
  destruct (String.eqb (Py.lower (MarketOpportunity.side raw)) "yes"
            || String.eqb (Py.lower (MarketOpportunity.side raw)) "no")%bool
    eqn:E.
  - now rewrite Hlow, E.
  - reflexivity.
Qed.

(** X21. The score of a constructed opportunity lies between 0 and its
    edge. *)
Theorem score_within_edge (raw : MarketOpportunity.t) :
  let o := MarketOpportunity.post_init raw in
  0 <= MarketOpportunity.score o <= MarketOpportunity.edge o.
Proof.
  cbv zeta. destruct (post_init_valid raw) as (Hc & _ & Hl & _ & He & _).
  set (o := MarketOpportunity.post_init raw) in *.
  unfold MarketOpportunity.score.
  set (e := MarketOpportunity.edge o) in *.
  set (c := MarketOpportunity.confidence o) in *.
  set (l := MarketOpportunity.liquidity_score o) in *.
  assert (H1 : 0 <= e * c) by (apply Qmult_le_0_compat; lra).
  assert (H2 : 0 <= e * (1 - c)) by (apply Qmult_le_0_compat; lra).
  assert (H3 : 0 <= e * c * l) by (apply Qmult_le_0_compat; lra).
  assert (H4 : 0 <= e * c * (1 - l)) by (apply Qmult_le_0_compat; lra).
  lra.
Qed.

Section PerformanceFacts.

Import TradePerformance.




End PerformanceFacts.



(** X23. On a constructed performance record the win rate lies between 0
    and 1, and win rate and loss rate add up to 1 as soon as a trade is
    counted; with no trade counted both are 0. *)
Theorem win_and_loss_rate (raw : TradePerformance.t) :
  let p := TradePerformance.post_init raw in
  0 <= TradePerformance.win_rate p <= 1 /\
  0 <= TradePerformance.loss_rate p <= 1 /\
  ((0 < TradePerformance.wins p + TradePerformance.losses p)%Z ->
   TradePerformance.win_rate p + TradePerformance.loss_rate p == 1) /\
  ((TradePerformance.wins p + TradePerformance.losses p = 0)%Z ->
   TradePerformance.win_rate p = 0 /\ TradePerformance.loss_rate p = 0).
Proof.
  cbv zeta. unfold TradePerformance.win_rate, TradePerformance.loss_rate.
  cbn [TradePerformance.post_init TradePerformance.wins
       TradePerformance.losses].
  set (w := Z.max 0 (TradePerformance.wins raw)).
  set (l := Z.max 0 (TradePerformance.losses raw)).
  assert (Hw : (0 <= w)%Z) by (subst w; lia).
  assert (Hl : (0 <= l)%Z) by (subst l; lia).
  cbv zeta.
  destruct (Z.ltb_spec 0 (w + l)) as [Hpos | Hzero].
  - assert (Ht : 0 < inject_Z (w + l))
      by (change 0 with (inject_Z 0); rewrite <- Zlt_Qlt; lia).
    assert (Hwq : 0 <= inject_Z w)
      by (change 0 with (inject_Z 0); rewrite <- Zle_Qle; lia).
    assert (Hlq : 0 <= inject_Z l)
      by (change 0 with (inject_Z 0); rewrite <- Zle_Qle; lia).
    assert (Hsum : inject_Z (w + l) == inject_Z w + inject_Z l)
      by (rewrite inject_Z_plus; reflexivity).
    repeat split.
    + apply Qle_shift_div_l; [exact Ht | lra].
    + apply Qle_shift_div_r; [exact Ht | lra].
    + apply Qle_shift_div_l; [exact Ht | lra].
    + apply Qle_shift_div_r; [exact Ht | lra].
    + intros _. rewrite Hsum. field. lra.
    + lia.
    + lia.
  - repeat split; try lra; lia.
Qed.

(** X24. [update_drawdown] never lowers the peak balance or the maximum
    drawdown; afterwards the peak is at least the balance it was given,
    and with a balance that is not negative a maximum drawdown that lay
    between 0 and 1 still does and covers the current drawdown from the
    peak. *)
Theorem update_drawdown_monotone (p : TradePerformance.t)
    (current_balance : Q) :
  0 <= current_balance ->
  0 <= TradePerformance.max_drawdown p <= 1 ->
  let p' := TradePerformance.update_drawdown p current_balance in
  TradePerformance.peak_balance p <= TradePerformance.peak_balance p' /\
  current_balance <= TradePerformance.peak_balance p' /\
  TradePerformance.max_drawdown p <= TradePerformance.max_drawdown p' /\
  0 <= TradePerformance.max_drawdown p' <= 1 /\
  (0 < TradePerformance.peak_balance p' ->
   (TradePerformance.peak_balance p' - current_balance)
   / TradePerformance.peak_balance p'
   <= TradePerformance.max_drawdown p').
Proof.
  intros Hbal Hdd. cbv zeta. unfold TradePerformance.update_drawdown.
  cbn [TradePerformance.peak_balance TradePerformance.max_drawdown].
  set (peak := if Py.ltb (TradePerformance.peak_balance p) current_balance
               then current_balance else TradePerformance.peak_balance p).
  assert (Hpk : TradePerformance.peak_balance p <= peak /\
                current_balance <= peak).
  { subst peak.
    destruct (Py.ltb (TradePerformance.peak_balance p) current_balance) eqn:E.
    - apply ltb_lt in E. lra.
    - apply ltb_ge in E. lra. }
  destruct Hpk as [Hpk1 Hpk2].
  split; [exact Hpk1 |]. split; [exact Hpk2 |].
  destruct (Py.ltb 0 peak) eqn:E.
  - apply ltb_lt in E.
    assert (Hd0 : 0 <= (peak - current_balance) / peak)
      by (apply Qle_shift_div_l; [exact E | lra]).
    assert (Hd1 : (peak - current_balance) / peak <= 1)
      by (apply Qle_shift_div_r; [exact E | lra]).
    pose proof (max_ge_l (TradePerformance.max_drawdown p)
                  ((peak - current_balance) / peak)) as Hl.
    pose proof (max_ge_r (TradePerformance.max_drawdown p)
                  ((peak - current_balance) / peak)) as Hr.
    destruct (max_cases (TradePerformance.max_drawdown p)
                ((peak - current_balance) / peak)) as [[Hm _] | [Hm _]];
      rewrite Hm in *; repeat split; intros; lra.
  - apply ltb_ge in E. repeat split; intros; lra.
Qed.

Lemma update_drawdown_monotone_witness :
  (0 <= 80 /\
   0 <= TradePerformance.max_drawdown
          (TradePerformance.update_drawdown TradePerformance.fresh 100) <= 1) /\
  TradePerformance.max_drawdown
    (TradePerformance.update_drawdown TradePerformance.fresh 100)
  <= TradePerformance.max_drawdown
       (TradePerformance.update_drawdown
          (TradePerformance.update_drawdown TradePerformance.fresh 100) 80).
Proof.
  assert (H0 : 0 <= 80) by (vm_compute; discriminate).
  assert (H1 : 0 <= TradePerformance.max_drawdown
                      (TradePerformance.update_drawdown
                         TradePerformance.fresh 100) <= 1)
    by (split; vm_compute; discriminate).
  split; [split; [exact H0 | exact H1] |].
  exact (proj1 (proj2 (proj2
           (update_drawdown_monotone
              (TradePerformance.update_drawdown TradePerformance.fresh 100)
              80 H0 H1)))).
Defined.

(** X25. Whatever the quotes and the volume, the liquidity score of a
    market lies between 0.1 and 1, and its mid price is strictly
    positive; with both yes quotes positive the spread is their
    difference and the mid price their mean in dollars. *)
Theorem market_data_derived (m : MarketData.t) :
  (1 # 10) <= MarketData.liquidity_score m <= 1 /\
  0 < MarketData.mid_price m /\
  (0 < MarketData.yes_bid m -> 0 < MarketData.yes_ask m ->
   MarketData.spread m = MarketData.yes_ask m - MarketData.yes_bid m /\
   MarketData.mid_price m * 200
   == MarketData.yes_bid m + MarketData.yes_ask m).
Proof.
  split; [| split].
  - unfold MarketData.liquidity_score.
    pose proof (max_ge_r (MarketData.volume m) 100) as Hv.
    assert (H1 : (1 # 10) <= Py.max (MarketData.volume m) 100 / 1000)
      by (apply Qle_shift_div_l; [reflexivity | lra]).
    split; [apply min_glb; [exact H1 | discriminate] | apply min_le_r].
  - unfold MarketData.mid_price.
    destruct (Py.ltb 0 (MarketData.yes_bid m)) eqn:E1;
      destruct (Py.ltb 0 (MarketData.yes_ask m)) eqn:E2;
      cbn [andb];
      try (destruct (Py.ltb 0 (MarketData.last_price m)) eqn:E3;
           [apply ltb_lt in E3; apply Qlt_shift_div_l; [reflexivity | lra]
           | reflexivity]).
    apply ltb_lt in E1, E2. apply Qlt_shift_div_l; [reflexivity | lra].
  - intros Hb Ha. unfold MarketData.spread, MarketData.mid_price.
    apply ltb_lt in Hb, Ha. rewrite Hb, Ha. cbn [andb].
    split; [reflexivity | field].
Qed.

Lemma market_data_derived_witness :
  let m := {| MarketData.ticker := "T"; MarketData.title := "t";
              MarketData.status := "open";
              MarketData.yes_bid := 40; MarketData.yes_ask := 44;
              MarketData.no_bid := 56; MarketData.no_ask := 60;
              MarketData.volume := 250; MarketData.open_interest := 0;
              MarketData.last_price := 42 |} in
  (0 < MarketData.yes_bid m /\ 0 < MarketData.yes_ask m) /\
  MarketData.spread m = MarketData.yes_ask m - MarketData.yes_bid m.
Proof.
  cbv zeta.
  assert (Hb : 0 < 40) by reflexivity.
  assert (Ha : 0 < 44) by reflexivity.
  split; [split; [exact Hb | exact Ha] |].
  exact (proj1 (proj2 (proj2 (market_data_derived
           {| MarketData.ticker := "T"; MarketData.title := "t";
              MarketData.status := "open";
              MarketData.yes_bid := 40; MarketData.yes_ask := 44;
              MarketData.no_bid := 56; MarketData.no_ask := 60;
              MarketData.volume := 250; MarketData.open_interest := 0;
              MarketData.last_price := 42 |})) Hb Ha)).
Defined.








(** ** strategies/manager.py: weights and performance tracking *)

Section StrategyBookFacts.

Import AsyncCache StrategyBook.

Lemma dict_set_Forall {X : Type} (P : X -> Prop) (d : dict X) (k : string)
    (x : X) :
  Forall (fun kv => P (snd kv)) d -> P x ->
  Forall (fun kv => P (snd kv)) (dict_set d k x).
Proof.
  intros Hd Hx. induction d as [| [k' x'] d IH]; cbn [dict_set].
  - apply List.Forall_cons; [exact Hx | apply List.Forall_nil].
  - apply List.Forall_cons_iff in Hd. destruct Hd as [Hh Ht].
    destruct (String.eqb k' k).
    + apply List.Forall_cons; [exact Hx | exact Ht].
    + apply List.Forall_cons; [exact Hh | apply IH; exact Ht].
Qed.

Lemma dict_pop_Forall {X : Type} (P : X -> Prop) (d : dict X) (k : string) :
  Forall (fun kv => P (snd kv)) d ->
  Forall (fun kv => P (snd kv)) (dict_pop d k).
Proof.
  intros Hd. induction d as [| [k' x'] d IH]; cbn [dict_pop].
  - apply List.Forall_nil.
  - apply List.Forall_cons_iff in Hd. destruct Hd as [Hh Ht].
    destruct (String.eqb k' k).
    + exact Ht.
    + apply List.Forall_cons; [exact Hh | apply IH; exact Ht].
Qed.

Lemma dict_get_Forall {X : Type} (P : X -> Prop) (d : dict X) (k : string)
    (x : X) :
  Forall (fun kv => P (snd kv)) d -> dict_get d k = Some x -> P x.
Proof.
  intros Hd. induction d as [| [k' x'] d IH]; cbn [dict_get].
  - discriminate.
  - apply List.Forall_cons_iff in Hd. destruct Hd as [Hh Ht].
    destruct (String.eqb k' k).
    + intro E. injection E as <-. exact Hh.
    + apply IH. exact Ht.
Qed.

Lemma add_strategy_inv (st : t) (name : string) (w : Q) :
  manager_inv st -> weight_in_range w -> manager_inv (add_strategy st name w).
Proof.
  intros [Hw Hp] Hr. split; cbn [add_strategy strategy_weights
                                 strategy_performance].
  - apply (dict_set_Forall weight_in_range); assumption.
  - exact Hp.
Qed.

Lemma init_inv (f s m : bool) : manager_inv (init f s m).
Proof.
  assert (H0 : manager_inv {| strategies := []; strategy_weights := [];
                              strategy_performance := [] |})
    by (split; apply List.Forall_nil).
  unfold init. cbv zeta.
  destruct f, s, m;
    repeat (apply add_strategy_inv;
            [| split; vm_compute; discriminate]);
    exact H0.
Qed.

Lemma update_strategy_weight_inv (st : t) (name : string) (w : Q) :
  manager_inv st -> manager_inv (update_strategy_weight st name w).
Proof.
  intros [Hw Hp]. unfold update_strategy_weight.
  destruct (dict_get (strategy_weights st) name); [| split; assumption].
  split; cbn [strategy_weights strategy_performance]; [| exact Hp].
  apply (dict_set_Forall weight_in_range); [exact Hw |].
  unfold weight_in_range.
  pose proof (min_le_l 2.0 w) as H2.
  pose proof (max_ge_l 0.1 (Py.min 2.0 w)) as H1.
  split; [exact H1 |].
  destruct (max_cases 0.1 (Py.min 2.0 w)) as [[-> _] | [-> _]]; lra.
Qed.

Lemma remove_strategy_inv (st : t) (name : string) :
  manager_inv st -> manager_inv (remove_strategy st name).
Proof.
  intros [Hw Hp]. split; cbn [remove_strategy strategy_weights
                              strategy_performance]; [| exact Hp].
  apply (dict_pop_Forall weight_in_range). exact Hw.
Qed.

Lemma adjust_weights_inv (st : t) :
  manager_inv st -> manager_inv (_adjust_weights st).
Proof.
  intros [Hw Hp]. unfold _adjust_weights.
  destruct (strategy_performance st) as [| first [| second more]] eqn:E;
    try (split; [exact Hw | rewrite ?E; exact Hp]).
  split; cbn [strategy_weights strategy_performance];
    [| rewrite ?E; exact Hp].
  apply List.Forall_map. revert Hw. apply List.Forall_impl.
  intros [k w] [Hlo Hhi]. cbn [fst snd] in *.
  destruct (String.eqb k (fst (max_item first (second :: more))));
    cbn [snd]; unfold weight_in_range.
  - destruct (min_cases 1.5 (w * 1.05)) as [[-> H] | [-> H]]; split; lra.
  - destruct (max_cases 0.5 (w * 0.98)) as [[-> H] | [-> H]]; split; lra.
Qed.

Lemma record_strategy_result_inv (st : t) (name : string) (pnl : Q) :
  manager_inv st ->
  fst (record_strategy_result st name pnl) = Py.Return tt /\
  manager_inv (snd (record_strategy_result st name pnl)).
Proof.
  intros [Hw Hp]. unfold record_strategy_result.
  set (p := match dict_get (strategy_performance st) name with
            | Some p => p
            | None => new_perf
            end).
  assert (Hprev : (0 <= wins p)%Z /\ (0 <= losses p)%Z /\ (0 <= trades p)%Z /\
                  (trades p = wins p + losses p)%Z).
  { subst p. destruct (dict_get (strategy_performance st) name) as [q |] eqn:E.
    - pose proof (dict_get_Forall perf_consistent _ _ _ Hp E)
        as (H1 & H2 & H3 & H4 & _). lia.
    - cbn. lia. }
  destruct Hprev as (H1 & H2 & H3 & H4). cbv zeta.
  destruct (Z.eqb_spec (trades p + 1) 0) as [E0 | Hne]; [lia |].
  cbn [fst snd]. split; [reflexivity |].
  apply adjust_weights_inv. split; cbn [strategy_weights strategy_performance];
    [exact Hw |].
  apply (dict_set_Forall perf_consistent); [exact Hp |].
  unfold perf_consistent. cbn [wins losses trades total_pnl avg_pnl].
  assert (Hq : 0 < inject_Z (trades p + 1))
    by (change 0 with (inject_Z 0); rewrite <- Zlt_Qlt; lia).
  destruct (Py.ltb 0 pnl);
    (split; [lia |]; split; [lia |]; split; [lia |]; split; [lia |];
     field; lra).
Qed.

Lemma reachable_manager_inv (st : t) : manager_reachable st -> manager_inv st.
Proof.
  induction 1 as [f s m | st name w _ IH | st name pnl _ IH | st name _ IH].
  - apply init_inv.
  - apply update_strategy_weight_inv. exact IH.
  - apply record_strategy_result_inv. exact IH.
  - apply remove_strategy_inv. exact IH.
Qed.

Lemma index_bracket_cons (c : ascii) (s : string) :
  String.index 0 "]" (String c s)
  = if ascii_dec "]" c then Some 0%nat
    else match String.index 0 "]" s with
         | Some n => Some (S n)
         | None => None
         end.
Proof.
  change (String.index 0 "]" (String c s))
    with (if String.prefix "]" (String c s) then Some 0%nat
          else match String.index 0 "]" s with
               | Some n => Some (S n)
               | None => None
               end).
  change (String.prefix "]" (String c s))
    with (if ascii_dec "]" c then String.prefix "" s else false).
  destruct (ascii_dec "]" c); [destruct s; reflexivity | reflexivity].
Qed.

Lemma index_closing_bracket (name rest : string) :
  no_closing_bracket name ->
  String.index 0 "]" (name ++ String "]" rest) = Some (String.length name).
Proof.
  unfold no_closing_bracket. induction name as [| c name IH]; intro H.
  - change ("" ++ String "]" rest)%string with (String "]" rest).
    rewrite index_bracket_cons.
    destruct (ascii_dec "]" "]") as [_ | Hne]; [reflexivity | congruence].
  - change (String c name ++ String "]" rest)%string
      with (String c (name ++ String "]" rest)).
    rewrite index_bracket_cons in *.
    destruct (ascii_dec "]" c) as [Heq | Hne]; [discriminate |].
    destruct (String.index 0 "]" name) eqn:E; [discriminate |].
    rewrite IH by reflexivity. reflexivity.
Qed.

Lemma index_open_bracket_head (s : string) :
  String.index 0 "[" (String "[" s) = Some 0%nat.
Proof.
  destruct s; reflexivity.
Qed.

Lemma substring_prefix (s t : string) :
  String.substring 0 (String.length s) (s ++ t) = s.
Proof.
  induction s as [| c s IH].
  - destruct t; reflexivity.
  - change (String.substring 0 (String.length (String c s))
              (String c s ++ t))
      with (String c (String.substring 0 (String.length s) (s ++ t))).
    now rewrite IH.
Qed.

End StrategyBookFacts.

(** X28. In every state a strategy manager reaches from [__init__] through
    [update_strategy_weight], [record_strategy_result] and
    [remove_strategy], each strategy weight lies between 0.1 and 2.0, each
    performance entry counts at least one trade, has its trades split into
    wins and losses and has its average equal to total PnL over trades, and
    [record_strategy_result] returns without raising. *)
Theorem manager_weights_and_stats (st : StrategyBook.t) :
  manager_reachable st ->
  (forall name w,
     AsyncCache.dict_get (StrategyBook.strategy_weights st) name = Some w ->
     0.1 <= w <= 2) /\
  (forall name p,
     AsyncCache.dict_get (StrategyBook.strategy_performance st) name = Some p ->
     perf_consistent p) /\
  (forall name pnl,
     fst (StrategyBook.record_strategy_result st name pnl) = Py.Return tt).
Proof.
  intro Hr. destruct (reachable_manager_inv st Hr) as [Hw Hp].
  split; [| split].
  - intros name w E.
    exact (dict_get_Forall weight_in_range _ _ _ Hw E).
  - intros name p E.
    exact (dict_get_Forall perf_consistent _ _ _ Hp E).
  - intros name pnl.
    apply record_strategy_result_inv. split; assumption.
Qed.

Lemma manager_weights_and_stats_witness :
  let st := snd (StrategyBook.record_strategy_result
                   (snd (StrategyBook.record_strategy_result
                           (StrategyBook.update_strategy_weight
                              (StrategyBook.init true true true)
                              "SentimentStrategy" 5)
                           "FundamentalStrategy" 12))
                   "MomentumStrategy" (-4)) in
  manager_reachable st /\
  (forall name w,
     AsyncCache.dict_get (StrategyBook.strategy_weights st) name = Some w ->
     0.1 <= w <= 2).
Proof.
  cbv zeta.
  assert (H : manager_reachable
                (snd (StrategyBook.record_strategy_result
                        (snd (StrategyBook.record_strategy_result
                                (StrategyBook.update_strategy_weight
                                   (StrategyBook.init true true true)
                                   "SentimentStrategy" 5)
                                "FundamentalStrategy" 12))
                        "MomentumStrategy" (-4)))).
  { apply mgr_record, mgr_record, mgr_update, mgr_init. }
  split; [exact H |].
  exact (proj1 (manager_weights_and_stats _ H)).
Defined.

(** X29. The weighting block of [analyze_market], applied on a reachable
    manager to a valid opportunity with no learner or with a learner whose
    adaptive weight is not negative, gives a valid opportunity again; and
    when the strategy's class name has no closing bracket, the name that
    [_create_consensus_opportunity] reads back from the reasoning of the
    weighted opportunity is that class name. *)
Theorem apply_weight_valid_and_tagged (st : StrategyBook.t)
    (name : string) (learner : option Q) (opp : MarketOpportunity.t) :
  manager_reachable st ->
  MarketOpportunity.valid opp ->
  match learner with
  | Some adaptive_weight => 0 <= adaptive_weight
  | None => True
  end ->
  no_closing_bracket name ->
  let out := StrategyBook.apply_weight st name learner opp in
  MarketOpportunity.valid out /\
  StrategyManager.strategy_name (MarketOpportunity.reasoning out) = Some name.
Proof.
  intros Hr (Hc & Hp & Hl & Hpr & He & Hs & Hside) Hlearn Hname. cbv zeta.
  destruct (reachable_manager_inv st Hr) as [Hw _].
  unfold StrategyBook.apply_weight.
  set (w0 := match AsyncCache.dict_get (StrategyBook.strategy_weights st) name
             with Some w => w | None => 1.0 end).
  assert (Hw0 : 0 <= w0).
  { subst w0.
    destruct (AsyncCache.dict_get (StrategyBook.strategy_weights st) name)
      as [w |] eqn:E; [| discriminate].
    pose proof (dict_get_Forall weight_in_range _ _ _ Hw E) as [H _]. lra. }
  set (w := match learner with
            | Some adaptive_weight => w0 * adaptive_weight
            | None => w0
            end).
  assert (Hwn : 0 <= w).
  { subst w. destruct learner as [a |]; [| exact Hw0].
    apply Qmult_le_0_compat; assumption. }
  cbv zeta. split.
  - unfold MarketOpportunity.valid.
    cbn [MarketOpportunity.confidence MarketOpportunity.probability
         MarketOpportunity.liquidity_score MarketOpportunity.entry_price
         MarketOpportunity.edge MarketOpportunity.suggested_size
         MarketOpportunity.side].
    assert (Hcw : 0 <= MarketOpportunity.confidence opp * w)
      by (apply Qmult_le_0_compat; [lra | exact Hwn]).
    split.
    { split; [apply min_glb; [discriminate | exact Hcw] |].
      pose proof (min_le_l 1.0 (MarketOpportunity.confidence opp * w)). lra. }
    split; [exact Hp |]. split; [exact Hl |]. split; [exact Hpr |].
    split; [apply Qmult_le_0_compat; assumption |].
    split; [exact Hs | exact Hside].
  - cbn [MarketOpportunity.reasoning].
    unfold StrategyManager.strategy_name.
    change ("[" ++ name ++ "] " ++ MarketOpportunity.reasoning opp)%string
      with (String "[" (name ++ String "]"
                          (" " ++ MarketOpportunity.reasoning opp))).
    rewrite index_open_bracket_head.
    rewrite index_bracket_cons.
    destruct (ascii_dec "]" "[") as [Heq | _]; [discriminate |].
    rewrite (index_closing_bracket name _ Hname).
    change (S (String.length name) - 1)%nat with (String.length name - 0)%nat.
    rewrite Nat.sub_0_r.
    change (String.substring 1 (String.length name)
              (String "[" (name ++ String "]"
                             (" " ++ MarketOpportunity.reasoning opp))))
      with (String.substring 0 (String.length name)
              (name ++ String "]" (" " ++ MarketOpportunity.reasoning opp))).
    now rewrite substring_prefix.
Qed.

Lemma apply_weight_valid_and_tagged_witness :
  let st := StrategyBook.init true true true in
  let opp := MarketOpportunity.post_init (sample "yes" 0.1 0.7 0.6 40 10) in
  (manager_reachable st /\ MarketOpportunity.valid opp /\
   0 <= 1.2 /\ no_closing_bracket "SentimentStrategy") /\
  StrategyManager.strategy_name
    (MarketOpportunity.reasoning
       (StrategyBook.apply_weight st "SentimentStrategy" (Some 1.2) opp))
  = Some "SentimentStrategy"%string.
Proof.
  cbv zeta.
  assert (H1 : manager_reachable (StrategyBook.init true true true))
    by apply mgr_init.
  assert (H2 : MarketOpportunity.valid
                 (MarketOpportunity.post_init (sample "yes" 0.1 0.7 0.6 40 10)))
    by apply post_init_valid.
  assert (H3 : 0 <= 1.2) by discriminate.
  assert (H4 : no_closing_bracket "SentimentStrategy") by reflexivity.
  split; [split; [exact H1 | split; [exact H2 | split; [exact H3 | exact H4]]] |].
  exact (proj2 (apply_weight_valid_and_tagged
                  (StrategyBook.init true true true) "SentimentStrategy"
                  (Some 1.2)
                  (MarketOpportunity.post_init
                     (sample "yes" 0.1 0.7 0.6 40 10))
                  H1 H2 H3 H4)).
Defined.

(** ** trading_engine.py: what the selection leaves out *)

Section SelectionCompleteness.

Import TradingEngine.

Lemma apply_risk_sizing_exact (pf : gmap string Q)
    (opps : list (MarketOpportunity.t * Q)) (rm : RiskManager.t) :
  fst (apply_risk_sizing pf opps rm)
  = List.map
      (fun r => MarketOpportunity.set_suggested_size (fst r)
                  (fst (RiskManager.check_trade_risk (fst r) pf (snd r) rm)))
      (List.filter
         (fun r =>
            (0 <? fst (RiskManager.check_trade_risk (fst r) pf (snd r) rm))%Z)
         opps).
Proof.
  induction opps as [| [opp now] rest IH].
  - reflexivity.
  - cbn [apply_risk_sizing List.filter fst snd]. unfold RiskManager.bind.
    rewrite (check_trade_risk_run opp pf now rm).
    pose proof (proj1 (apply_risk_sizing_spec pf rest rm)) as Hs.
    destruct (apply_risk_sizing pf rest rm) as [final s'].
    cbn [fst snd] in *. subst s'.
    destruct (0 <? fst (RiskManager.check_trade_risk opp pf now rm))%Z;
      unfold RiskManager.ret; cbn [fst snd List.map]; now rewrite IH.
Qed.

Lemma valid_opps_complete (results : list (option MarketOpportunity.t * Q))
    (o : MarketOpportunity.t) (now : Q) :
  In (Some o, now) results -> 0 < MarketOpportunity.edge o ->
  In (o, now) (valid_opps results).
Proof.
  intros Hin Hedge. unfold valid_opps. apply in_flat_map.
  exists (Some o, now). split; [exact Hin |]. cbn [fst snd].
  apply ltb_lt in Hedge. rewrite Hedge. now left.
Qed.

Lemma insert_desc_length (x : MarketOpportunity.t)
    (l : list MarketOpportunity.t) :
  List.length (insert_desc x l) = S (List.length l).
Proof.
  induction l as [| y l IH]; cbn [insert_desc]; [reflexivity |].
  destruct (Py.leb (rank_key y) (rank_key x)); cbn [List.length];
    [reflexivity | now rewrite IH].
Qed.

Lemma sort_desc_length (l : list MarketOpportunity.t) :
  List.length (sort_desc l) = List.length l.
Proof.
  induction l as [| x l IH]; cbn [sort_desc List.length]; [reflexivity |].
  now rewrite insert_desc_length, IH.
Qed.

Lemma insert_desc_keeps (x y : MarketOpportunity.t)
    (l : list MarketOpportunity.t) :
  y = x \/ In y l -> In y (insert_desc x l).
Proof.
  induction l as [| z l IH]; cbn [insert_desc].
  - intros [-> | []]. now left.
  - destruct (Py.leb (rank_key z) (rank_key x)).
    + intros [-> | H]; [now left | now right].
    + intros [-> | [<- | H]].
      * right. apply IH. now left.
      * now left.
      * right. apply IH. now right.
Qed.

Lemma sort_desc_keeps (y : MarketOpportunity.t)
    (l : list MarketOpportunity.t) :
  In y l -> In y (sort_desc l).
Proof.
  induction l as [| x l IH]; cbn [sort_desc]; [tauto |].
  intros [<- | H]; apply insert_desc_keeps; [now left | right; now apply IH].
Qed.

Lemma ranked_desc_app (l1 l2 : list MarketOpportunity.t) :
  ranked_desc (l1 ++ l2) ->
  forall x y, In x l1 -> In y l2 -> rank_key y <= rank_key x.
Proof.
  unfold ranked_desc. induction l1 as [| z l1 IH]; intros Hs x y Hx Hy.
  - destruct Hx.
  - cbn [app] in Hs. apply StronglySorted_inv in Hs. destruct Hs as [Hl Hz].
    destruct Hx as [<- | Hx].
    + rewrite List.Forall_forall in Hz. apply Hz.
      apply in_or_app. now right.
    + now apply (IH Hl x y).
Qed.

Lemma prefix_of_ranked (k : nat) (l : list MarketOpportunity.t)
    (o : MarketOpportunity.t) :
  In o l ->
  In o (firstn k (sort_desc l)) \/
  forall x, In x (firstn k (sort_desc l)) -> rank_key o <= rank_key x.
Proof.
  intro Hin. apply sort_desc_keeps in Hin.
  rewrite <- (firstn_skipn k (sort_desc l)) in Hin at 1.
  apply in_app_or in Hin. destruct Hin as [H | H]; [now left | right].
  intros x Hx.
  apply (ranked_desc_app (firstn k (sort_desc l)) (skipn k (sort_desc l)));
    [| exact Hx | exact H].
  rewrite firstn_skipn. apply sort_desc_ranked.
Qed.

End SelectionCompleteness.

(** X30. [find_best_opportunities] leaves the risk manager as it was and
    returns a prefix of the ranking of all approved opportunities: every
    analysed opportunity of positive edge that the risk manager sizes at a
    positive count is either returned or ranks no higher than everything
    returned. For [top_n >= 0] the result has [min(top_n, approved)]
    elements; for a negative [top_n] the slice drops the [-top_n] lowest
    ranked ones instead. *)
Theorem find_best_opportunities_complete (rm : RiskManager.t)
    (pf : gmap string Q) (results : list (option MarketOpportunity.t * Q))
    (top_n : Z) :
  let out := fst (TradingEngine.find_best_opportunities pf results top_n rm) in
  let approved := Z.of_nat (approved_count rm pf results) in
  snd (TradingEngine.find_best_opportunities pf results top_n rm) = rm /\
  Z.of_nat (List.length out)
  = (if (0 <=? top_n)%Z then Z.min top_n approved
     else Z.max 0 (approved + top_n)) /\
  (forall o, risk_approved rm pf results o ->
     In o out \/
     forall x, In x out ->
       TradingEngine.rank_key o <= TradingEngine.rank_key x).
Proof.
  cbv zeta.
  unfold TradingEngine.find_best_opportunities, RiskManager.bind,
    RiskManager.ret, approved_count.
  pose proof (apply_risk_sizing_exact pf (TradingEngine.valid_opps results) rm)
    as Hex.
  pose proof (proj1 (apply_risk_sizing_spec pf
                       (TradingEngine.valid_opps results) rm)) as Hst.
  destruct (TradingEngine.apply_risk_sizing pf
              (TradingEngine.valid_opps results) rm) as [final s'].
  cbn [fst snd] in *. subst s'.
  split; [reflexivity |].
  assert (Hlen : List.length (TradingEngine.sort_desc final)
                 = List.length
                     (List.filter
                        (fun r =>
                           (0 <? fst (RiskManager.check_trade_risk
                                        (fst r) pf (snd r) rm))%Z)
                        (TradingEngine.valid_opps results))).
  { rewrite sort_desc_length, Hex. apply List.length_map. }
  split.
  - unfold TradingEngine.slice_to.
    destruct (Z.leb_spec 0 top_n) as [Hn | Hn];
      rewrite List.length_firstn, Hlen; lia.
  - intros o (orig & now & Hin & Hedge & Hpos & ->).
    assert (Hfin : In (MarketOpportunity.set_suggested_size orig
                         (fst (RiskManager.check_trade_risk orig pf now rm)))
                      final).
    { rewrite Hex.
      apply (in_map
               (fun r => MarketOpportunity.set_suggested_size (fst r)
                           (fst (RiskManager.check_trade_risk
                                   (fst r) pf (snd r) rm)))
               _ (orig, now)).
      apply filter_In. split.
      - now apply valid_opps_complete.
      - cbn [fst snd]. now apply Z.ltb_lt. }
    unfold TradingEngine.slice_to.
    destruct (0 <=? top_n)%Z; now apply prefix_of_ranked.
Qed.
